(** * scripts/manage_version.py: the version manager of rustbot

    A shallow embedding of [VersionManager] and of the Python built-ins it
    calls ([str.split], [int], [str], the [04d] format, [re.search], [re.sub],
    [Path.read_text], [Path.write_text], [print]), followed by the properties
    of the bump rules, of the three file updates and of the orchestration.

    Modelling conventions.
    - A Python [str] is a [string]; a character is a code point in the range
      0..255 (the Latin-1 part of Unicode). Code points above 255 are outside
      the model.
    - A Python [int] is a [Z]. The interpreter's limit on the number of digits
      converted between [int] and [str] is a run-time setting; not modelled.
    - A file is its text, as [read_text] returns it and [write_text] takes it;
      the project directory is a record of the three files the script touches,
      each present or absent. [read_text] reads with universal newlines, so
      the text it returns holds no carriage return, and a text written with
      one is read back with a line feed in its place: the store is exact for
      texts without carriage return. The properties that read a value back
      after it was written assume that it holds none.
    - A raised exception is a value of [exn]; a method is a function from the
      project to an outcome, the project afterwards and the events (file
      writes and printed lines) it emitted. An exception keeps the writes made
      before it: nothing is rolled back. *)

From Stdlib Require Import ZArith NArith String Ascii List Bool Lia.
From Stdlib Require Import DecimalString DecimalZ DecimalN DecimalFacts.
Import ListNotations.

Local Open Scope string_scope.
Local Open Scope list_scope.

(** ** Characters *)

Definition nl : ascii := "010"%char.   (* line feed, written \n in the source *)
Definition dq : ascii := "034"%char.   (* the double quote *)
Definition bs : ascii := "092"%char.   (* the backslash *)

Definition code (c : ascii) : N := N_of_ascii c.

Definition between (lo hi : N) (c : ascii) : bool :=
  ((lo <=? code c) && (code c <=? hi))%N.

Definition is_digit (c : ascii) : bool := between 48 57 c.
Definition is_octdigit (c : ascii) : bool := between 48 55 c.
Definition is_ascii_letter (c : ascii) : bool :=
  between 65 90 c || between 97 122 c.

(** The three files of the project, named as the attributes of
    [VersionManager]: src/version.rs, Cargo.toml and VERSION_MANAGEMENT.md. *)
Inductive path : Type := VersionRs | CargoToml | VersionMd.

(** Exceptions the script can raise, one constructor per raise site or
    library failure. All but [FileNotFoundError] and [TemplateError] are
    [ValueError] in Python, told apart by their message. *)
Inductive exn : Type :=
| FileNotFoundError (file : path)
    (* read_text on an absent file *)
| CouldNotParseVersion
    (* ValueError("Could not parse version from version.rs") *)
| InvalidVersionFormat (version : string)
    (* ValueError(f"Invalid version format: {version}") *)
| InvalidLiteralForInt (s : string)
    (* ValueError raised by int() *)
| InvalidBumpType (bump_type : string)
    (* ValueError(f"Invalid bump type: {bump_type}") *)
| TemplateError (repl : string).
    (* re.error or IndexError raised by re.sub for a bad replacement *)

Inductive result (A : Type) : Type :=
| Ok (a : A)
| Raise (e : exn).
Arguments Ok {A} a.
Arguments Raise {A} e.

Definition rbind {A B : Type} (r : result A) (f : A -> result B) : result B :=
  match r with
  | Ok a => f a
  | Raise e => Raise e
  end.

(** ** Python built-ins *)
Module Py.

(** [s.split(sep)] for a one-character separator. *)
Fixpoint split (sep : ascii) (s : string) : list string :=
  match s with
  | EmptyString => [EmptyString]
  | String c s' =>
      if Ascii.eqb c sep then EmptyString :: split sep s'
      else match split sep s' with
           | h :: t => String c h :: t
           | [] => [String c EmptyString]
           end
  end.

(** [sep.join(parts)]. *)
Fixpoint join (sep : string) (parts : list string) : string :=
  match parts with
  | [] => EmptyString
  | [p] => p
  | p :: rest => p ++ sep ++ join sep rest
  end.

(** White space as [int] sees it: tab, line feed, vertical tab, form feed,
    carriage return, space, and the two Latin-1 spaces U+0085 and U+00A0. *)
Definition int_space (c : ascii) : bool :=
  between 9 13 c || (code c =? 32)%N || (code c =? 133)%N || (code c =? 160)%N.

Fixpoint skip_space (s : string) : string :=
  match s with
  | String c s' => if int_space c then skip_space s' else s
  | EmptyString => s
  end.

Fixpoint span (f : ascii -> bool) (s : string) : string * string :=
  match s with
  | String c s' =>
      if f c then let (a, b) := span f s' in (String c a, b)
      else (EmptyString, s)
  | EmptyString => (EmptyString, EmptyString)
  end.

Definition is_underscore (c : ascii) : bool := Ascii.eqb c "_"%char.

(** The run of digits and underscores of a literal: an underscore may only
    stand between two digits. [prev] tells that the previous character was
    an underscore or that the run has not started. *)
Fixpoint digits_ok (prev : bool) (body : string) : bool :=
  match body with
  | EmptyString => negb prev
  | String c r =>
      if is_underscore c then negb prev && digits_ok true r
      else digits_ok false r
  end.

Fixpoint remove_underscores (body : string) : string :=
  match body with
  | EmptyString => EmptyString
  | String c r =>
      if is_underscore c then remove_underscores r
      else String c (remove_underscores r)
  end.

(** [int(s)] in base 10: optional white space, an optional sign, decimal
    digits with single underscores between them, optional white space. *)
Definition int (s : string) : result Z :=
  let s1 := skip_space s in
  let '(neg, s2) :=
    match s1 with
    | String c r =>
        if Ascii.eqb c "+" then (false, r)
        else if Ascii.eqb c "-" then (true, r)
        else (false, s1)
    | EmptyString => (false, s1)
    end in
  let '(body, rest) := span (fun c => is_digit c || is_underscore c) s2 in
  if digits_ok true body && String.eqb (skip_space rest) EmptyString then
    match NilEmpty.uint_of_string (remove_underscores body) with
    | Some d => Ok (if neg then (- Z.of_uint d)%Z else Z.of_uint d)
    | None => Raise (InvalidLiteralForInt s)
    end
  else Raise (InvalidLiteralForInt s).

(** [str(z)], also what [f"{z}"] gives. *)
Definition str (z : Z) : string := NilZero.string_of_int (Z.to_int z).

Fixpoint zeros (n : nat) : string :=
  match n with
  | O => EmptyString
  | S k => String "0"%char (zeros k)
  end.

(** [f"{z:04d}"]: the sign, then zeros, then the digits, four characters at
    least. *)
Definition format_04d (z : Z) : string :=
  let sign := if (z <? 0)%Z then "-" else EmptyString in
  let digits := str (Z.abs z) in
  sign ++ zeros (4 - String.length sign - String.length digits) ++ digits.

End Py.

(** ** The fragment of Python's [re] the script uses *)
Module Re.

(** A pattern is a sequence of items. The five patterns of the script need
    literal characters, a greedy [+] over a character class, [^] under
    [re.MULTILINE] and one capture group. *)
Inductive item : Type :=
| Chr (c : ascii)
| Plus (cls : ascii -> bool)
| Bol
| Open
| Close.

Definition pattern : Type := list item.

Fixpoint lit (s : string) : pattern :=
  match s with
  | EmptyString => []
  | String c s' => Chr c :: lit s'
  end.

(** [\s] on str patterns: the white space of Unicode, here below 256. *)
Definition cls_space (c : ascii) : bool :=
  between 9 13 c || between 28 32 c || (code c =? 133)%N || (code c =? 160)%N.

(** A negated one-character class, as in the classes excluding the double
    quote and the line feed. *)
Definition cls_not (x : ascii) (c : ascii) : bool := negb (Ascii.eqb c x).

Fixpoint take (n : nat) (s : string) : string :=
  match n, s with
  | S k, String c s' => String c (take k s')
  | _, _ => EmptyString
  end.

Definition consumed (s rest : string) : nat :=
  String.length s - String.length rest.

(** Greedy repetition: take characters of the class as long as possible,
    then give them back one at a time until the continuation [k] matches.
    [bol] tells whether the position is at the start of a line. *)
Fixpoint greedy {A : Type} (cls : ascii -> bool)
    (k : bool -> string -> option A) (bol : bool) (s : string) : option A :=
  match s with
  | String c s' =>
      if cls c then
        match greedy cls k (Ascii.eqb c nl) s' with
        | Some r => Some r
        | None => k bol s
        end
      else k bol s
  | EmptyString => k bol s
  end.

(** The match of pattern [p] starting at the current position: the text left
    after the match and group 1. [opened] is the text at the opening
    parenthesis, [grp] what group 1 holds. *)
Fixpoint match_here (p : pattern) (bol : bool) (opened grp : option string)
    (s : string) : option (string * option string) :=
  match p with
  | [] => Some (s, grp)
  | Chr c :: p' =>
      match s with
      | String x s' =>
          if Ascii.eqb x c then match_here p' (Ascii.eqb x nl) opened grp s'
          else None
      | EmptyString => None
      end
  | Plus cls :: p' =>
      match s with
      | String x s' =>
          if cls x then
            greedy cls (fun b t => match_here p' b opened grp t)
                   (Ascii.eqb x nl) s'
          else None
      | EmptyString => None
      end
  | Bol :: p' => if bol then match_here p' bol opened grp s else None
  | Open :: p' => match_here p' bol (Some s) grp s
  | Close :: p' =>
      match_here p' bol opened
        (option_map (fun o => take (consumed o s) o) opened) s
  end.

(** [re.search]: the leftmost position where the pattern matches. *)
Fixpoint search_from (p : pattern) (bol : bool) (s : string)
    : option (string * option string) :=
  match match_here p bol None None s with
  | Some m => Some m
  | None =>
      match s with
      | String c s' => search_from p (Ascii.eqb c nl) s'
      | EmptyString => None
      end
  end.

Definition search (p : pattern) (s : string)
    : option (string * option string) :=
  search_from p true s.

(** [m.group(1)] of a search. *)
Definition group1 (m : string * option string) : string :=
  match snd m with
  | Some g => g
  | None => EmptyString
  end.

(** *** Replacement templates *)

Inductive token : Type :=
| TChr (c : ascii)
| TEsc (c : ascii).

Fixpoint tokenize (s : string) : option (list token) :=
  match s with
  | EmptyString => Some []
  | String c s' =>
      if Ascii.eqb c bs then
        match s' with
        | String d s'' => option_map (cons (TEsc d)) (tokenize s'')
        | EmptyString => None
        end
      else option_map (cons (TChr c)) (tokenize s')
  end.

Inductive piece : Type :=
| PLit (s : string)
| PGroup (index : nat).

Definition octal (ds : list ascii) : N :=
  fold_left (fun acc d => (8 * acc + (code d - 48))%N) ds 0%N.

Definition chr (n : N) : string := String (ascii_of_N n) EmptyString.

Definition escapes (c : ascii) : option N :=
  if Ascii.eqb c "a" then Some 7%N
  else if Ascii.eqb c "b" then Some 8%N
  else if Ascii.eqb c "f" then Some 12%N
  else if Ascii.eqb c "n" then Some 10%N
  else if Ascii.eqb c "r" then Some 13%N
  else if Ascii.eqb c "t" then Some 9%N
  else if Ascii.eqb c "v" then Some 11%N
  else if Ascii.eqb c bs then Some 92%N
  else None.

Definition token_text (t : token) : string :=
  match t with
  | TChr c => String c EmptyString
  | TEsc c => String bs (String c EmptyString)
  end.

(** A numeric group reference, valid when the pattern has that group. The
    patterns here have no named group. *)
Definition group_ref (groups : nat) (name : string) : option piece :=
  match Py.int name with
  | Ok i => if ((0 <=? i)%Z && (i <=? Z.of_nat groups)%Z)%bool
            then Some (PGroup (Z.to_nat i)) else None
  | Raise _ => None
  end.

Definition digit_of (t : token) : option ascii :=
  match t with
  | TChr c => if is_digit c then Some c else None
  | TEsc _ => None
  end.

Definition octdigit_of (t : token) : option ascii :=
  match t with
  | TChr c => if is_octdigit c then Some c else None
  | TEsc _ => None
  end.

Definition decimal (ds : list ascii) : nat :=
  fold_left (fun acc d => 10 * acc + N.to_nat (code d - 48)) ds 0.

Definition pcons (p : piece) (r : option (list piece)) : option (list piece) :=
  option_map (cons p) r.

(** The parser of replacement strings. [name] is [Some acc] while the name
    of a [\g<...>] reference is being read. *)
Fixpoint parse_template (groups : nat) (name : option string)
    (ts : list token) : option (list piece) :=
  match name with
  | Some acc =>
      match ts with
      | [] => None
      | TChr c :: ts' =>
          if Ascii.eqb c ">" then
            match group_ref groups acc with
            | Some g => pcons g (parse_template groups None ts')
            | None => None
            end
          else parse_template groups
                 (Some (acc ++ String c EmptyString)%string) ts'
      | TEsc c :: ts' =>
          parse_template groups (Some (acc ++ token_text (TEsc c))%string) ts'
      end
  | None =>
      match ts with
      | [] => Some []
      | TChr c :: ts' =>
          pcons (PLit (String c EmptyString)) (parse_template groups None ts')
      | TEsc c :: ts' =>
          if Ascii.eqb c "g" then
            match ts' with
            | TChr "<"%char :: ts'' =>
                parse_template groups (Some EmptyString) ts''
            | _ => None
            end
          else if Ascii.eqb c "0" then
            match ts' with
            | t1 :: ts1 =>
                match octdigit_of t1 with
                | Some x1 =>
                    match ts1 with
                    | t2 :: ts2 =>
                        match octdigit_of t2 with
                        | Some x2 =>
                            pcons (PLit (chr (N.land (octal [x1; x2]) 255)))
                                  (parse_template groups None ts2)
                        | None =>
                            pcons (PLit (chr (octal [x1])))
                                  (parse_template groups None ts1)
                        end
                    | [] => Some [PLit (chr (octal [x1]))]
                    end
                | None => pcons (PLit (chr 0)) (parse_template groups None ts')
                end
            | [] => Some [PLit (chr 0)]
            end
          else if is_digit c then
            match ts' with
            | t1 :: ts1 =>
                match digit_of t1 with
                | Some x1 =>
                    match ts1 with
                    | t2 :: ts2 =>
                        match octdigit_of t2 with
                        | Some x2 =>
                            if is_octdigit c && is_octdigit x1 then
                              if (octal [c; x1; x2] <=? 255)%N then
                                pcons (PLit (chr (octal [c; x1; x2])))
                                      (parse_template groups None ts2)
                              else None
                            else if Nat.leb (decimal [c; x1]) groups then
                              pcons (PGroup (decimal [c; x1]))
                                    (parse_template groups None ts1)
                            else None
                        | None =>
                            if Nat.leb (decimal [c; x1]) groups then
                              pcons (PGroup (decimal [c; x1]))
                                    (parse_template groups None ts1)
                            else None
                        end
                    | [] =>
                        if Nat.leb (decimal [c; x1]) groups
                        then Some [PGroup (decimal [c; x1])] else None
                    end
                | None =>
                    if Nat.leb (decimal [c]) groups then
                      pcons (PGroup (decimal [c]))
                            (parse_template groups None ts')
                    else None
                end
            | [] => if Nat.leb (decimal [c]) groups
                    then Some [PGroup (decimal [c])] else None
            end
          else
            match escapes c with
            | Some n => pcons (PLit (chr n)) (parse_template groups None ts')
            | None =>
                if is_ascii_letter c then None
                else pcons (PLit (token_text (TEsc c)))
                           (parse_template groups None ts')
            end
      end
  end.

Fixpoint count_groups (p : pattern) : nat :=
  match p with
  | [] => 0
  | Open :: p' => S (count_groups p')
  | _ :: p' => count_groups p'
  end.

Definition compile_template (p : pattern) (repl : string)
    : option (list piece) :=
  match tokenize repl with
  | Some ts => parse_template (count_groups p) None ts
  | None => None
  end.

(** The text a template stands for at a match [m] with group 1 [g]. *)
Fixpoint expand (t : list piece) (m : string) (g : option string) : string :=
  match t with
  | [] => EmptyString
  | PLit s :: t' => s ++ expand t' m g
  | PGroup 0 :: t' => m ++ expand t' m g
  | PGroup _ :: t' => group1 (m, g) ++ expand t' m g
  end.

(** [re.sub] with [count=0]: every match, left to right, is replaced; the
    text between matches is kept. [skip] counts the characters of the
    current match still to pass over. *)
Fixpoint sub_from (p : pattern) (t : list piece) (bol : bool) (skip : nat)
    (s : string) : string :=
  match skip with
  | S k =>
      match s with
      | String c s' => sub_from p t (Ascii.eqb c nl) k s'
      | EmptyString => EmptyString
      end
  | O =>
      match match_here p bol None None s with
      | Some (rest, g) =>
          let n := consumed s rest in
          expand t (take n s) g ++
          match s with
          | String c s' =>
              if Nat.eqb n 0 then String c (sub_from p t (Ascii.eqb c nl) 0 s')
              else sub_from p t (Ascii.eqb c nl) (n - 1) s'
          | EmptyString => EmptyString
          end
      | None =>
          match s with
          | String c s' => String c (sub_from p t (Ascii.eqb c nl) 0 s')
          | EmptyString => EmptyString
          end
      end
  end.

(** [re.sub(p, repl, s)]; the replacement is compiled before the search
    starts, so a bad replacement raises even when nothing matches. *)
Definition sub (p : pattern) (repl : string) (s : string) : result string :=
  match compile_template p repl with
  | Some t => Ok (sub_from p t true 0 s)
  | None => Raise (TemplateError repl)
  end.

End Re.

(** ** The project directory, events and the method monad *)

Record project : Type := mkProject {
  version_rs : option string;
  cargo_toml : option string;
  version_md : option string
}.

(** The lines the script prints, one constructor per [print] call. *)
Inductive message : Type :=
| MsgUpdated (file : path)
| MsgVersionBump (bump_type : string)
| MsgOld (version build : string)
| MsgNew (version build : string)
| MsgBumpedSuccessfully
| MsgNextSteps
| MsgReviewChanges
| MsgRebuild
| MsgCommit (version : string)
| MsgPush
| MsgCurrentVersion
| MsgVersion (version : string)
| MsgBuild (build : string)
| MsgFull (version build : string).

Inductive event : Type :=
| Wrote (file : path) (content : string)
| Printed (line : message).

Definition M (A : Type) : Type := project -> result A * project * list event.

Definition ret {A : Type} (a : A) : M A := fun w => (Ok a, w, []).

Definition raise {A : Type} (e : exn) : M A := fun w => (Raise e, w, []).

Definition bind {A B : Type} (m : M A) (f : A -> M B) : M B :=
  fun w =>
    match m w with
    | (Ok a, w1, l1) =>
        match f a w1 with
        | (r, w2, l2) => (r, w2, l1 ++ l2)
        end
    | (Raise e, w1, l1) => (Raise e, w1, l1)
    end.

Definition lift {A : Type} (r : result A) : M A := fun w => (r, w, []).

Declare Scope method_scope.
Delimit Scope method_scope with method.
Notation "x <- m ;; k" := (bind m (fun x => k))
  (at level 61, m at next level, right associativity) : method_scope.
Notation "' pat <- m ;; k" := (bind m (fun x => match x with pat => k end))
  (at level 61, pat pattern, m at next level, right associativity)
  : method_scope.
Notation "m ;; k" := (bind m (fun _ => k))
  (at level 61, right associativity) : method_scope.

Definition content_of (file : path) (w : project) : option string :=
  match file with
  | VersionRs => version_rs w
  | CargoToml => cargo_toml w
  | VersionMd => version_md w
  end.

Definition store (file : path) (content : string) (w : project) : project :=
  match file with
  | VersionRs => mkProject (Some content) (cargo_toml w) (version_md w)
  | CargoToml => mkProject (version_rs w) (Some content) (version_md w)
  | VersionMd => mkProject (version_rs w) (cargo_toml w) (Some content)
  end.

Definition read_text (file : path) : M string :=
  fun w =>
    match content_of file w with
    | Some content => (Ok content, w, [])
    | None => (Raise (FileNotFoundError file), w, [])
    end.

Definition write_text (file : path) (content : string) : M unit :=
  fun w => (Ok tt, store file content w, [Wrote file content]).

Definition print (line : message) : M unit :=
  fun w => (Ok tt, w, [Printed line]).



(** ** class VersionManager *)
Module VersionManager.

Local Open Scope method_scope.

Definition quoted (s : string) : string :=
  (String dq s ++ String dq EmptyString)%string.

(** The patterns of the source are written below with Q for the double
    quote. [pub const VERSION: &str = Q([^Q]+)Q] and its BUILD twin: *)
Definition version_group_re : Re.pattern :=
  Re.lit "pub const VERSION: &str = " ++
  [Re.Chr dq; Re.Open; Re.Plus (Re.cls_not dq); Re.Close; Re.Chr dq].

Definition build_group_re : Re.pattern :=
  Re.lit "pub const BUILD: &str = " ++
  [Re.Chr dq; Re.Open; Re.Plus (Re.cls_not dq); Re.Close; Re.Chr dq].

(** [pub const VERSION: &str = Q[^Q]+Q] and its BUILD twin: *)
Definition version_re : Re.pattern :=
  Re.lit "pub const VERSION: &str = " ++
  [Re.Chr dq; Re.Plus (Re.cls_not dq); Re.Chr dq].

Definition build_re : Re.pattern :=
  Re.lit "pub const BUILD: &str = " ++
  [Re.Chr dq; Re.Plus (Re.cls_not dq); Re.Chr dq].

(** [^version = Q[^Q]+Q] with flags=re.MULTILINE: *)
Definition cargo_re : Re.pattern :=
  Re.Bol :: Re.lit "version = " ++
  [Re.Chr dq; Re.Plus (Re.cls_not dq); Re.Chr dq].

(** [## Current Version\s+- \*\*Version\*\*: [^\n]+\s+- \*\*Build\*\*: [^\n]+] *)
Definition current_version_re : Re.pattern :=
  Re.lit "## Current Version" ++ [Re.Plus Re.cls_space] ++
  Re.lit "- **Version**: " ++ [Re.Plus (Re.cls_not nl); Re.Plus Re.cls_space] ++
  Re.lit "- **Build**: " ++ [Re.Plus (Re.cls_not nl)].

Definition get_current_version : M (string * string) :=
  content <- read_text VersionRs ;;
  let version_match := Re.search version_group_re content in
  let build_match := Re.search build_group_re content in
  match version_match, build_match with
  | Some vm, Some bm => ret (Re.group1 vm, Re.group1 bm)
  | _, _ => raise CouldNotParseVersion
  end.

Definition parse_version (version : string) : result (Z * Z * Z) :=
  match Py.split "." version with
  | [a; b; c] =>
      rbind (Py.int a) (fun major =>
      rbind (Py.int b) (fun minor =>
      rbind (Py.int c) (fun patch => Ok (major, minor, patch))))
  | _ => Raise (InvalidVersionFormat version)
  end.

(** The f-string [{major}.{minor}.{patch}]. *)
Definition format_version (major minor patch : Z) : string :=
  (Py.str major ++ "." ++ Py.str minor ++ "." ++ Py.str patch)%string.

Definition bump_version (bump_type : string) : M (string * string) :=
  '(current_version, current_build) <- get_current_version ;;
  '(major, minor, patch) <- lift (parse_version current_version) ;;
  if String.eqb bump_type "major" then
    ret (format_version (major + 1) 0 0, "0001")
  else if String.eqb bump_type "minor" then
    ret (format_version major (minor + 1) 0, "0001")
  else if String.eqb bump_type "patch" then
    ret (format_version major minor (patch + 1), "0001")
  else if String.eqb bump_type "build" then
    build_num <- lift (Py.int current_build) ;;
    ret (current_version, Py.format_04d (build_num + 1))
  else raise (InvalidBumpType bump_type).

Definition update_version_rs (version build : string) : M unit :=
  content <- read_text VersionRs ;;
  content <- lift (Re.sub version_re
                     ("pub const VERSION: &str = " ++ quoted version) content) ;;
  content <- lift (Re.sub build_re
                     ("pub const BUILD: &str = " ++ quoted build) content) ;;
  write_text VersionRs content ;;
  print (MsgUpdated VersionRs).

Definition update_cargo_toml (version : string) : M unit :=
  content <- read_text CargoToml ;;
  content <- lift (Re.sub cargo_re ("version = " ++ quoted version) content) ;;
  write_text CargoToml content ;;
  print (MsgUpdated CargoToml).

Definition current_version_block (version build : string) : string :=
  ("## Current Version" ++ String nl (String nl EmptyString) ++
   "- **Version**: " ++ version ++ String nl EmptyString ++
   "- **Build**: " ++ build)%string.

Definition update_version_md (version build : string) : M unit :=
  content <- read_text VersionMd ;;
  content <- lift (Re.sub current_version_re
                     (current_version_block version build) content) ;;
  write_text VersionMd content ;;
  print (MsgUpdated VersionMd).

Definition bump (bump_type : string) : M unit :=
  '(old_version, old_build) <- get_current_version ;;
  '(new_version, new_build) <- bump_version bump_type ;;
  print (MsgVersionBump bump_type) ;;
  print (MsgOld old_version old_build) ;;
  print (MsgNew new_version new_build) ;;
  update_version_rs new_version new_build ;;
  (if negb (String.eqb new_version old_version)
   then update_cargo_toml new_version
   else ret tt) ;;
  update_version_md new_version new_build ;;
  print MsgBumpedSuccessfully ;;
  print MsgNextSteps ;;
  print MsgReviewChanges ;;
  print MsgRebuild ;;
  print (MsgCommit new_version) ;;
  print MsgPush.

Definition show : M unit :=
  '(version, build) <- get_current_version ;;
  print MsgCurrentVersion ;;
  print (MsgVersion version) ;;
  print (MsgBuild build) ;;
  print (MsgFull version build).

End VersionManager.

(** ** Vocabulary of the properties *)

Fixpoint all_chars (f : ascii -> bool) (s : string) : bool :=
  match s with
  | EmptyString => true
  | String c s' => f c && all_chars f s'
  end.

Fixpoint count_char (x : ascii) (s : string) : nat :=
  match s with
  | EmptyString => 0
  | String c s' => (if Ascii.eqb c x then 1 else 0) + count_char x s'
  end.

(** A decimal numeral: one digit or more, nothing else. *)
Definition decimal_numeral (s : string) : bool :=
  negb (String.eqb s EmptyString) && all_chars is_digit s.

(** A numeral as [str] prints a natural number: no leading zero, except for
    zero itself. *)
Definition canonical_numeral (s : string) : bool :=
  decimal_numeral s &&
  match s with
  | String "0"%char (String _ _) => false
  | _ => true
  end.

(** The characters an [int] literal is made of. *)
Definition literal_char (c : ascii) : bool :=
  is_digit c || Py.int_space c || Ascii.eqb c "+" || Ascii.eqb c "-" ||
  Py.is_underscore c.

(** A replacement without backslash stands for itself. *)
Definition no_backslash (s : string) : bool :=
  all_chars (fun c => negb (Ascii.eqb c bs)) s.

(** What the method calls of the script leave behind. *)
Definition outcome {A : Type} (m : M A) (w : project) : result A :=
  fst (fst (m w)).
Definition project_after {A : Type} (m : M A) (w : project) : project :=
  snd (fst (m w)).
Definition events {A : Type} (m : M A) (w : project) : list event :=
  snd (m w).

(** The manifest line by line. [declaration] is the text a declaration line
    starts with, up to and including the opening quote. *)
Definition declaration : string := "version = " ++ String dq EmptyString.

Fixpoint strip_prefix (pre s : string) : option string :=
  match pre with
  | EmptyString => Some s
  | String p pre' =>
      match s with
      | String c s' => if Ascii.eqb c p then strip_prefix pre' s' else None
      | EmptyString => None
      end
  end.

(** A line that opens a declaration and has no closing quote. *)
Definition unterminated (line : string) : bool :=
  match strip_prefix declaration line with
  | Some r => all_chars (Re.cls_not dq) r
  | None => false
  end.

(** The line with its declared version replaced, when it starts with a
    declaration of a non-empty version; the line itself otherwise. *)
Definition rewrite_line (version line : string) : string :=
  match strip_prefix declaration line with
  | Some r =>
      match Py.span (Re.cls_not dq) r with
      | (String _ _, String _ rest) =>
          declaration ++ version ++ String dq rest
      | _ => line
      end
  | None => line
  end.

Definition declares (line : string) : bool :=
  match strip_prefix declaration line with
  | Some r =>
      match Py.span (Re.cls_not dq) r with
      | (String _ _, String _ _) => true
      | _ => false
      end
  | None => false
  end.

(** The reading under which only the first declaration line is rewritten. *)
Fixpoint rewrite_first (version : string) (lines : list string)
    : list string :=
  match lines with
  | [] => []
  | l :: rest =>
      if declares l then rewrite_line version l :: rest
      else l :: rewrite_first version rest
  end.

Definition lines_of (content : string) : list string := Py.split nl content.
Definition unlines (lines : list string) : string :=
  Py.join (String nl EmptyString) lines.

Import VersionManager.

(** The characters [str] prints, and those of a version [parse_version]
    accepts. *)
Definition sign_or_digit (c : ascii) : bool := is_digit c || Ascii.eqb c "-".

Definition version_char (c : ascii) : bool :=
  literal_char c || Ascii.eqb c ".".

(** The tokens and the pieces of a replacement without backslash. *)
Fixpoint literal_tokens (s : string) : list Re.token :=
  match s with
  | EmptyString => []
  | String c s' => Re.TChr c :: literal_tokens s'
  end.

Fixpoint literal_pieces (s : string) : list Re.piece :=
  match s with
  | EmptyString => []
  | String c s' => Re.PLit (String c EmptyString) :: literal_pieces s'
  end.

(** The body of [bump_version] once the stored pair is read and parsed. *)
Definition bump_rule (bump_type current_version current_build : string)
    (major minor patch : Z) : result (string * string) :=
  if String.eqb bump_type "major" then
    Ok (format_version (major + 1) 0 0, "0001")
  else if String.eqb bump_type "minor" then
    Ok (format_version major (minor + 1) 0, "0001")
  else if String.eqb bump_type "patch" then
    Ok (format_version major minor (patch + 1), "0001")
  else if String.eqb bump_type "build" then
    rbind (Py.int current_build) (fun build_num =>
      Ok (current_version, Py.format_04d (build_num + 1)))
  else Raise (InvalidBumpType bump_type).

(** The steps of [bump] after the new pair is computed. *)
Definition bump_writes (bump_type old_version old_build new_version new_build
                        : string) : M unit :=
  (print (MsgVersionBump bump_type) ;;
   print (MsgOld old_version old_build) ;;
   print (MsgNew new_version new_build) ;;
   update_version_rs new_version new_build ;;
   (if negb (String.eqb new_version old_version)
    then update_cargo_toml new_version
    else ret tt) ;;
   update_version_md new_version new_build ;;
   print MsgBumpedSuccessfully ;;
   print MsgNextSteps ;;
   print MsgReviewChanges ;;
   print MsgRebuild ;;
   print (MsgCommit new_version) ;;
   print MsgPush)%method.

(** The four bump types, and the exceptions that are [ValueError]. *)
Definition recognized (bump_type : string) : bool :=
  String.eqb bump_type "major" || String.eqb bump_type "minor" ||
  String.eqb bump_type "patch" || String.eqb bump_type "build".



(** Lines and line starts. [bol_after bol s] tells whether the position
    after [s] starts a line; [line_end t] whether a line ends where [t]
    starts. *)
Definition no_newline (s : string) : bool := all_chars (Re.cls_not nl) s.

Fixpoint bol_after (bol : bool) (s : string) : bool :=
  match s with
  | EmptyString => bol
  | String c s' => bol_after (Ascii.eqb c nl) s'
  end.

Definition line_end (t : string) : bool :=
  match t with
  | EmptyString => true
  | String c _ => Ascii.eqb c nl
  end.

(** What [re.sub] on the manifest makes of the text from the end of a line
    on. *)
Definition sub_rest (t : list Re.piece) (rest : string) : string :=
  match rest with
  | EmptyString => EmptyString
  | String c r => String c (Re.sub_from cargo_re t true 0 r)
  end.

(** Sample projects: a constants file with the two declarations, alone or
    with a manifest and a documentation file. *)
Definition sample_version_rs (version build : string) : string :=
  "pub const VERSION: &str = " ++ quoted version ++ ";" ++ String nl "" ++
  "pub const BUILD: &str = " ++ quoted build ++ ";" ++ String nl "".

Definition sample_project (version build : string) : project :=
  mkProject (Some (sample_version_rs version build)) None None.

Definition sample_tree (version build manifest doc : string) : project :=
  mkProject (Some (sample_version_rs version build)) (Some manifest)
            (Some doc).

(** A manifest with a package version and a dependency table that declares
    its own version. *)
Definition sample_manifest : string :=
  unlines ["[package]";
           ("name = " ++ quoted "rustbot")%string;
           (declaration ++ "0.2.6" ++ String dq "")%string;
           "[dependencies.serde]";
           (declaration ++ "1.0" ++ String dq "")%string;
           ""].

Definition sample_doc : string :=
  unlines ["# Version Management"; "";
           current_version_block "0.2.6" "0007"; ""].

Ltac digit_cases c H :=
  let K := fresh in
  pose proof H as K;
  destruct c as [[] [] [] [] [] [] [] []]; try discriminate K; clear K.

(** ** The command line *)

(** What [main] prints itself: the usage text (the docstring of the
    script), its own error lines, and the line that reports a caught
    exception. *)
Inductive main_message : Type :=
| Usage
| CouldNotFindCargoToml
| BumpRequiresType
| UnknownCommand (command : string)
| CaughtError (e : exn).

Inductive main_event : Type :=
| Script (e : event)
| Said (line : main_message).

(** The body of the [try] block for a command that calls a method: the
    process ends with status 0 when the method returns, and the handler
    prints the exception and ends it with status 1 otherwise. *)
Definition run_command (m : M unit) (w : project)
    : Z * project * list main_event :=
  match m w with
  | (Ok _, w', log) => (0%Z, w', map Script log)
  | (Raise e, w', log) => (1%Z, w', map Script log ++ [Said (CaughtError e)])
  end.

(** [main], from [sys.argv] and the project directory to the exit status,
    the project afterwards and what was printed and written. *)
Definition main (argv : list string) (w : project)
    : Z * project * list main_event :=
  match argv with
  | _ :: command :: args =>
      match cargo_toml w with
      | None => (1%Z, w, [Said CouldNotFindCargoToml])
      | Some _ =>
          if String.eqb command "show" then run_command show w
          else if String.eqb command "bump" then
            match args with
            | [] => (1%Z, w, [Said BumpRequiresType; Said Usage])
            | bump_type :: _ => run_command (bump bump_type) w
            end
          else (1%Z, w, [Said (UnknownCommand command); Said Usage])
      end
  | _ => (1%Z, w, [Said Usage])
  end.

Definition exit_status (r : Z * project * list main_event) : Z :=
  fst (fst r).
Definition project_left (r : Z * project * list main_event) : project :=
  snd (fst r).
Definition output (r : Z * project * list main_event) : list main_event :=
  snd r.

Definition is_file_write (e : main_event) : bool :=
  match e with
  | Script (Wrote _ _) => true
  | _ => false
  end.

(** ** Further vocabulary *)

(** The precedence order of versions. *)
Definition version_lt (v v' : Z * Z * Z) : Prop :=
  let '(a, b, c) := v in
  let '(a', b', c') := v' in
  (a < a' \/ (a = a' /\ b < b') \/ (a = a' /\ b = b' /\ c < c'))%Z.

(** The update methods with the file each one works on. *)
Inductive update : Type :=
| UpdateVersionRs (version build : string)
| UpdateCargoToml (version : string)
| UpdateVersionMd (version build : string).

Definition update_method (u : update) : M unit :=
  match u with
  | UpdateVersionRs version build => update_version_rs version build
  | UpdateCargoToml version => update_cargo_toml version
  | UpdateVersionMd version build => update_version_md version build
  end.

Definition update_file (u : update) : path :=
  match u with
  | UpdateVersionRs _ _ => VersionRs
  | UpdateCargoToml _ => CargoToml
  | UpdateVersionMd _ _ => VersionMd
  end.


(** Text without a double quote, and a value fit to stand between the
    quotes of a declaration: not empty, made of version characters. *)
Definition quote_free (s : string) : bool := all_chars (Re.cls_not dq) s.

Definition plain_value (s : string) : bool :=
  negb (String.eqb s EmptyString) && all_chars version_char s.

(** Text that [read_text] returns as [write_text] took it: no carriage
    return, which universal newlines would turn into a line feed. *)
Definition cr : ascii := "013"%char.

Definition no_carriage_return (s : string) : bool :=
  all_chars (Re.cls_not cr) s.

(** A manifest whose declaration has its closing quote on the next line:
    no line of it matches the declaration form. *)
Definition open_manifest : string :=
  unlines ["[package]"; (declaration ++ "1.0")%string; String dq ""].

(** A constants file: the two declarations, in this order, in a text that
    holds no other double quote. *)
Definition version_declaration (version : string) : string :=
  "pub const VERSION: &str = " ++ quoted version.

Definition build_declaration (build : string) : string :=
  "pub const BUILD: &str = " ++ quoted build.

Definition constants_file (pre version mid build post : string) : string :=
  pre ++ version_declaration version ++ mid ++ build_declaration build
      ++ post.

Definition is_script (e : main_event) : bool :=
  match e with
  | Script _ => true
  | Said _ => false
  end.

(** Is [l] a suffix of [s]? *)
Fixpoint ends_with (l s : string) : bool :=
  String.eqb s l ||
  match s with
  | EmptyString => false
  | String _ s' => ends_with l s'
  end.

(** The shape of the patterns on the constants file: a literal head, then
    a quoted value, captured or not. *)
Definition quoted_re (head : string) : Re.pattern :=
  Re.lit head ++ [Re.Chr dq; Re.Plus (Re.cls_not dq); Re.Chr dq].

Definition quoted_group_re (head : string) : Re.pattern :=
  Re.lit head ++
  [Re.Chr dq; Re.Open; Re.Plus (Re.cls_not dq); Re.Close; Re.Chr dq].

Definition version_head : string := "pub const VERSION: &str = ".
Definition build_head : string := "pub const BUILD: &str = ".

(** What a pattern on a quoted value does at the text after the opening
    quote: [found] is what group 1 holds for the value. *)
Definition quoted_match (found : string -> option string) (r : string)
    : option (string * option string) :=
  match Py.span (Re.cls_not dq) r with
  | (String c x, String _ rest) => Some (rest, found (String c x))
  | _ => None
  end.

(** ** The documentation file *)

(** Does [l] occur in [s]? *)
Fixpoint occurs (l s : string) : bool :=
  match strip_prefix l s with
  | Some _ => true
  | None =>
      match s with
      | EmptyString => false
      | String _ s' => occurs l s'
      end
  end.

Definition heading : string := "## Current Version".

(** White space, at least one character. *)
Definition blank (s : string) : bool :=
  negb (String.eqb s EmptyString) && all_chars Re.cls_space s.

(** A value on one line: at least one character, none a line feed. *)
Definition one_line (s : string) : bool :=
  negb (String.eqb s EmptyString) && no_newline s.

(** The section of the documentation file that the pattern of
    [update_version_md] looks for, with the white space [gap1] under the
    heading and [gap2] at the start of the line of the build;
    [current_version_block] is the one with an empty line and no
    indentation. *)
Definition version_block (gap1 version gap2 build : string) : string :=
  ("## Current Version" ++ gap1 ++
   "- **Version**: " ++ version ++ String nl gap2 ++
   "- **Build**: " ++ build)%string.

(** A repetition over [cls] cannot go on into [s]. *)
Definition stops (cls : ascii -> bool) (s : string) : bool :=
  match s with
  | EmptyString => true
  | String c _ => negb (cls c)
  end.

(** * Properties *)

(** ** Strings *)

Lemma append_nil_r (s : string) : (s ++ "")%string = s.
Proof. induction s; simpl; congruence. Qed.

Lemma all_chars_app (f : ascii -> bool) (a b : string) :
  all_chars f (a ++ b) = all_chars f a && all_chars f b.
Proof.
  induction a as [|c a IH]; simpl; [reflexivity|].
  now rewrite IH, andb_assoc.
Qed.

Lemma all_chars_weaken (f g : ascii -> bool) (s : string) :
  (forall c, f c = true -> g c = true) ->
  all_chars f s = true -> all_chars g s = true.
Proof.
  intros Hfg. induction s as [|c s IH]; simpl; [reflexivity|].
  intros [Hc Hs]%andb_true_iff. rewrite (Hfg _ Hc). now apply IH.
Qed.

Lemma span_app (f : ascii -> bool) (s a b : string) :
  Py.span f s = (a, b) -> s = (a ++ b)%string /\ all_chars f a = true.
Proof.
  revert a b. induction s as [|c s IH]; simpl; intros a b H.
  - inversion H. now split.
  - destruct (f c) eqn:Hc.
    + destruct (Py.span f s) as [a' b'] eqn:E. inversion H; subst.
      destruct (IH a' b eq_refl) as [-> Ha]. simpl. now rewrite Hc, Ha.
    + inversion H. now split.
Qed.

Lemma span_all (f : ascii -> bool) (s : string) :
  all_chars f s = true -> Py.span f s = (s, "").
Proof.
  induction s as [|c s IH]; simpl; [reflexivity|].
  intros [Hc Hs]%andb_true_iff. now rewrite Hc, (IH Hs).
Qed.

Lemma skip_space_empty (s : string) :
  Py.skip_space s = "" -> all_chars Py.int_space s = true.
Proof.
  induction s as [|c s IH]; simpl; [reflexivity|].
  destruct (Py.int_space c); [assumption|discriminate].
Qed.

Lemma skip_space_chars (f : ascii -> bool) (s : string) :
  (forall c, Py.int_space c = true -> f c = true) ->
  all_chars f (Py.skip_space s) = true -> all_chars f s = true.
Proof.
  intros Hf. induction s as [|c s IH]; simpl; [reflexivity|].
  destruct (Py.int_space c) eqn:Hc; [|exact (fun H => H)].
  intros H. now rewrite (Hf _ Hc), (IH H).
Qed.

(** ** Digits *)

Lemma digit_not_space (c : ascii) :
  is_digit c = true -> Py.int_space c = false.
Proof. intros H. digit_cases c H; reflexivity. Qed.

Lemma digit_not_sign (c : ascii) :
  is_digit c = true ->
  Ascii.eqb c "+" = false /\ Ascii.eqb c "-" = false /\
  Py.is_underscore c = false.
Proof. intros H. digit_cases c H; repeat split; reflexivity. Qed.

Lemma uint_of_digits (s : string) :
  all_chars is_digit s = true ->
  exists d, NilEmpty.uint_of_string s = Some d.
Proof.
  induction s as [|c s IH]; simpl; [now eexists|].
  intros [Hc Hs]%andb_true_iff. destruct (IH Hs) as [d ->].
  digit_cases c Hc; simpl; now eexists.
Qed.

Lemma string_of_uint_digits (d : Decimal.uint) :
  all_chars is_digit (NilEmpty.string_of_uint d) = true.
Proof. induction d; simpl; auto. Qed.

Lemma digits_ok_digits (s : string) :
  all_chars is_digit s = true -> Py.digits_ok false s = true.
Proof.
  induction s as [|c s IH]; simpl; [reflexivity|].
  intros [Hc Hs]%andb_true_iff.
  destruct (digit_not_sign c Hc) as (_ & _ & ->). now apply IH.
Qed.

Lemma remove_underscores_digits (s : string) :
  all_chars is_digit s = true -> Py.remove_underscores s = s.
Proof.
  induction s as [|c s IH]; simpl; [reflexivity|].
  intros [Hc Hs]%andb_true_iff.
  destruct (digit_not_sign c Hc) as (_ & _ & ->). now rewrite (IH Hs).
Qed.

(** [int] on a run of digits, with or without a minus sign. *)
Lemma int_digits (s : string) (d : Decimal.uint) :
  decimal_numeral s = true ->
  NilEmpty.uint_of_string s = Some d ->
  Py.int s = Ok (Z.of_uint d) /\
  Py.int (String "-" s) = Ok (- Z.of_uint d)%Z.
Proof.
  unfold decimal_numeral. intros [Hne Hs]%andb_true_iff Hd.
  destruct s as [|c s]; [discriminate|].
  pose proof Hs as Hs'. simpl in Hs'. apply andb_true_iff in Hs' as [Hc Hr].
  destruct (digit_not_sign c Hc) as (Hp & Hm & Hu).
  assert (Hbody : Py.span (fun c => is_digit c || Py.is_underscore c)
                    (String c s) = (String c s, "")).
  { apply span_all. eapply all_chars_weaken; [|exact Hs].
    intros x Hx. now rewrite Hx. }
  assert (Hok : Py.digits_ok true (String c s) = true).
  { simpl. rewrite Hu. now apply digits_ok_digits. }
  split; unfold Py.int.
  - cbn [Py.skip_space]. rewrite (digit_not_space c Hc), Hp, Hm, Hbody, Hok.
    cbn [Py.skip_space String.eqb andb].
    now rewrite (remove_underscores_digits _ Hs), Hd.
  - cbn [Py.skip_space]. change (Py.int_space "-") with false.
    cbv iota. change (Ascii.eqb "-" "+") with false.
    change (Ascii.eqb "-" "-") with true. cbv iota.
    rewrite Hbody, Hok. cbn [Py.skip_space String.eqb andb].
    now rewrite (remove_underscores_digits _ Hs), Hd.
Qed.

Lemma to_int_normal (z : Z) : Decimal.norm (Z.to_int z) = Z.to_int z.
Proof. rewrite <- (DecimalZ.of_to z) at 2. now rewrite DecimalZ.to_of. Qed.

Lemma string_of_uint_nonempty (d : Decimal.uint) :
  d <> Decimal.Nil -> String.eqb (NilEmpty.string_of_uint d) "" = false.
Proof. destruct d; simpl; congruence. Qed.

(** [int(str(z))] is [z]. *)
Lemma int_str (z : Z) : Py.int (Py.str z) = Ok z.
Proof.
  unfold Py.str. pose proof (to_int_normal z) as Hn.
  pose proof (DecimalZ.of_to z) as Hz.
  destruct (Z.to_int z) as [d|d]; simpl in Hn, Hz |- *.
  - assert (Hd : d <> Decimal.Nil).
    { injection Hn as <-. apply unorm_nonnil. }
    assert (E : NilZero.string_of_uint d = NilEmpty.string_of_uint d)
      by (destruct d; [contradiction|reflexivity..]).
    rewrite E, <- Hz.
    apply int_digits; [|apply NilEmpty.usu].
    unfold decimal_numeral.
    now rewrite string_of_uint_nonempty, string_of_uint_digits.
  - assert (Hd : d <> Decimal.Nil).
    { intros ->. discriminate Hn. }
    assert (E : NilZero.string_of_uint d = NilEmpty.string_of_uint d)
      by (destruct d; [contradiction|reflexivity..]).
    rewrite E, <- Hz.
    apply int_digits; [|apply NilEmpty.usu].
    unfold decimal_numeral.
    now rewrite string_of_uint_nonempty, string_of_uint_digits.
Qed.

Lemma str_chars (z : Z) : all_chars sign_or_digit (Py.str z) = true.
Proof.
  unfold Py.str.
  assert (H : forall d,
            all_chars sign_or_digit (NilZero.string_of_uint d) = true).
  { intros d. eapply all_chars_weaken with (f := is_digit).
    - intros c Hc. unfold sign_or_digit. now rewrite Hc.
    - destruct d; try apply string_of_uint_digits. reflexivity. }
  destruct (Z.to_int z); simpl; auto.
Qed.

Lemma str_nonneg_digits (z : Z) :
  (0 <= z)%Z -> decimal_numeral (Py.str z) = true.
Proof.
  intros Hz. unfold Py.str, decimal_numeral.
  destruct z as [|p|p]; [reflexivity| |lia].
  simpl. pose proof (to_int_normal (Z.pos p)) as Hn. simpl in Hn.
  assert (Hd : Pos.to_uint p <> Decimal.Nil).
  { injection Hn as <-. apply unorm_nonnil. }
  assert (E : NilZero.string_of_uint (Pos.to_uint p)
              = NilEmpty.string_of_uint (Pos.to_uint p))
    by (destruct (Pos.to_uint p); [contradiction|reflexivity..]).
  now rewrite E, string_of_uint_nonempty, string_of_uint_digits.
Qed.

(** A canonical numeral is read and printed back unchanged. *)
Lemma int_canonical (s : string) :
  canonical_numeral s = true ->
  exists z, (0 <= z)%Z /\ Py.int s = Ok z /\ Py.str z = s.
Proof.
  unfold canonical_numeral. intros [Hdec Hlead]%andb_true_iff.
  pose proof Hdec as Hdec'. unfold decimal_numeral in Hdec'.
  apply andb_true_iff in Hdec' as [Hne Hs].
  destruct (uint_of_digits s Hs) as [d Hd].
  exists (Z.of_uint d). split; [|split].
  - unfold Z.of_uint. lia.
  - now apply int_digits.
  - unfold Py.str. change (Z.of_uint d) with (Z.of_int (Decimal.Pos d)).
    rewrite DecimalZ.to_of. simpl.
    assert (Hu : Decimal.unorm d = d).
    { destruct s as [|c s]; [discriminate|].
      simpl in Hd. destruct (NilEmpty.uint_of_string s) as [d'|] eqn:Ed;
        [|discriminate].
      simpl in Hs. apply andb_true_iff in Hs as [Hc _].
      digit_cases c Hc; simpl in Hd; injection Hd as <-; try reflexivity.
      destruct s as [|c' s]; [|discriminate].
      simpl in Ed. injection Ed as <-. reflexivity. }
    assert (Hnil : d <> Decimal.Nil).
    { rewrite <- Hu. apply unorm_nonnil. }
    rewrite Hu.
    transitivity (NilEmpty.string_of_uint d).
    + destruct d; [contradiction|reflexivity..].
    + now apply NilEmpty.sus.
Qed.

(** A literal [int] accepts is made of literal characters only. *)
Lemma int_chars (s : string) (z : Z) :
  Py.int s = Ok z -> all_chars literal_char s = true.
Proof.
  unfold Py.int. intros H.
  apply (skip_space_chars literal_char).
  { intros c Hc. unfold literal_char. rewrite Hc.
    now rewrite ?orb_true_r. }
  set (s1 := Py.skip_space s) in *. clearbody s1.
  assert (Hbody : forall s2,
    (let '(body, rest) :=
       Py.span (fun c => is_digit c || Py.is_underscore c) s2 in
     Py.digits_ok true body && String.eqb (Py.skip_space rest) "" = true) ->
    all_chars literal_char s2 = true).
  { intros s2.
    destruct (Py.span _ s2) as [body rest] eqn:E.
    intros [_ Hrest%String.eqb_eq]%andb_true_iff.
    destruct (span_app _ _ _ _ E) as [-> Hb].
    rewrite all_chars_app. apply andb_true_iff. split.
    - eapply all_chars_weaken; [|exact Hb]. intros c Hc.
      unfold literal_char. apply orb_true_iff in Hc as [-> | ->];
        now rewrite ?orb_true_r.
    - eapply all_chars_weaken; [|apply skip_space_empty, Hrest].
      intros c Hc. unfold literal_char. rewrite Hc. now rewrite ?orb_true_r. }
  destruct s1 as [|c r].
  - destruct (Py.span _ "") as [body rest] eqn:E. simpl in E.
    inversion E; subst. discriminate H.
  - destruct (Ascii.eqb_spec c "+") as [->|Hp];
      [|destruct (Ascii.eqb_spec c "-") as [->|Hm]].
    + simpl. apply Hbody.
      destruct (Py.span _ r) as [body rest].
      destruct (_ && _); [reflexivity|discriminate H].
    + simpl. apply Hbody.
      destruct (Py.span _ r) as [body rest].
      destruct (_ && _); [reflexivity|discriminate H].
    + apply Hbody.
      destruct (Py.span _ (String c r)) as [body rest].
      destruct (_ && _); [reflexivity|discriminate H].
Qed.

Lemma int_raise (s : string) (e : exn) :
  Py.int s = Raise e -> e = InvalidLiteralForInt s.
Proof.
  unfold Py.int.
  destruct (Py.skip_space s) as [|c r].
  - destruct (Py.span _ _) as [body rest].
    destruct (_ && _); [destruct (NilEmpty.uint_of_string _)|]; congruence.
  - destruct (Ascii.eqb c "+"); [|destruct (Ascii.eqb c "-")];
      destruct (Py.span _ _) as [body rest];
      (destruct (_ && _); [destruct (NilEmpty.uint_of_string _)|]); congruence.
Qed.

(** ** Splitting and joining *)

Lemma split_nonempty (sep : ascii) (s : string) : Py.split sep s <> [].
Proof.
  destruct s as [|c s]; simpl; [discriminate|].
  destruct (Ascii.eqb c sep); [discriminate|].
  destruct (Py.split sep s); discriminate.
Qed.

Lemma split_length (sep : ascii) (s : string) :
  List.length (Py.split sep s) = S (count_char sep s).
Proof.
  induction s as [|c s IH]; simpl; [reflexivity|].
  destruct (Ascii.eqb c sep); simpl.
  - now rewrite IH.
  - destruct (Py.split sep s) as [|h t] eqn:E; simpl in *; lia.
Qed.

Lemma join_split (sep : ascii) (s : string) :
  Py.join (String sep "") (Py.split sep s) = s.
Proof.
  induction s as [|c s IH]; simpl; [reflexivity|].
  destruct (Ascii.eqb_spec c sep) as [->|Hne].
  - simpl. pose proof (split_nonempty sep s).
    destruct (Py.split sep s) as [|h t]; [contradiction|].
    simpl in *. now rewrite IH.
  - pose proof (split_nonempty sep s).
    destruct (Py.split sep s) as [|h t]; [contradiction|].
    destruct t as [|h' t]; simpl in *; now rewrite <- IH.
Qed.

Lemma split_app (sep : ascii) (a r : string) :
  all_chars (fun c => negb (Ascii.eqb c sep)) a = true ->
  Py.split sep (a ++ String sep r) = a :: Py.split sep r.
Proof.
  induction a as [|c a IH]; simpl.
  - now rewrite Ascii.eqb_refl.
  - intros [Hc Ha]%andb_true_iff. apply negb_true_iff in Hc.
    now rewrite Hc, (IH Ha).
Qed.

Lemma split_none (sep : ascii) (a : string) :
  all_chars (fun c => negb (Ascii.eqb c sep)) a = true ->
  Py.split sep a = [a].
Proof.
  induction a as [|c a IH]; simpl; [reflexivity|].
  intros [Hc Ha]%andb_true_iff. apply negb_true_iff in Hc.
  now rewrite Hc, (IH Ha).
Qed.

Lemma str_no_char (x : ascii) (z : Z) :
  sign_or_digit x = false ->
  all_chars (fun c => negb (Ascii.eqb c x)) (Py.str z) = true.
Proof.
  intros Hx. eapply all_chars_weaken; [|apply str_chars].
  intros c Hc. apply negb_true_iff.
  destruct (Ascii.eqb_spec c x) as [->|]; congruence.
Qed.

Lemma split_format_version (major minor patch : Z) :
  Py.split "." (format_version major minor patch)
  = [Py.str major; Py.str minor; Py.str patch].
Proof.
  unfold format_version.
  change (Py.str major ++ "." ++ Py.str minor ++ "." ++ Py.str patch)%string
    with (Py.str major
          ++ String "." (Py.str minor ++ String "." (Py.str patch)))%string.
  rewrite !split_app, split_none; auto using str_no_char.
Qed.

(** Parsing what [format_version] printed gives the three numbers back. *)
Lemma parse_format_version (major minor patch : Z) :
  parse_version (format_version major minor patch)
  = Ok (major, minor, patch).
Proof.
  unfold parse_version. rewrite split_format_version.
  now rewrite !int_str.
Qed.

(** C7. A version string that does not split on the dot into exactly three
    components, which is the same as not holding exactly two dots, makes
    [parse_version] raise the format error; no component is converted, so
    the error is the format error even when a component is not numeric. *)
Theorem parse_version_component_count (version : string) :
  (List.length (Py.split "." version) <> 3 <-> count_char "." version <> 2) /\
  (List.length (Py.split "." version) <> 3 ->
   parse_version version = Raise (InvalidVersionFormat version)).
Proof.
  split.
  - rewrite split_length. lia.
  - intros Hl. unfold parse_version.
    destruct (Py.split "." version) as [|a [|b [|c [|d l]]]]; try reflexivity.
    now elim Hl.
Qed.

Lemma parse_version_component_count_witness :
  parse_version "1.2" = Raise (InvalidVersionFormat "1.2").
Proof.
  apply (proj2 (parse_version_component_count "1.2")). simpl. lia.
Defined.

(** C6, refuted as stated. The version 01.2.3 has three numeric components
    and [parse_version] accepts it, yet formatting the parsed triple gives
    1.2.3, not the input. *)
Lemma format_parse_leading_zero :
  parse_version "01.2.3" = Ok (1, 2, 3)%Z /\
  format_version 1 2 3 = "1.2.3" /\
  format_version 1 2 3 <> "01.2.3".
Proof. repeat split. discriminate. Qed.

(** C6, as the code has it. When the three components are canonical
    numerals (digits only, no leading zero except for zero itself),
    [parse_version] accepts the string and formatting the parsed triple
    reproduces it exactly. *)
Theorem format_parse_canonical (version a b c : string) :
  Py.split "." version = [a; b; c] ->
  canonical_numeral a = true ->
  canonical_numeral b = true ->
  canonical_numeral c = true ->
  exists major minor patch,
    parse_version version = Ok (major, minor, patch) /\
    format_version major minor patch = version.
Proof.
  intros Hs Ha Hb Hc.
  destruct (int_canonical a Ha) as (x & _ & Hx & Sx).
  destruct (int_canonical b Hb) as (y & _ & Hy & Sy).
  destruct (int_canonical c Hc) as (z & _ & Hz & Sz).
  exists x, y, z. split.
  - unfold parse_version. rewrite Hs, Hx, Hy, Hz. reflexivity.
  - unfold format_version. rewrite Sx, Sy, Sz.
    rewrite <- (join_split "." version), Hs. reflexivity.
Qed.

Lemma format_parse_canonical_witness :
  exists major minor patch,
    parse_version "1.2.3" = Ok (major, minor, patch) /\
    format_version major minor patch = "1.2.3".
Proof.
  apply (format_parse_canonical "1.2.3" "1" "2" "3"); reflexivity.
Defined.

(** C8, refuted as stated. The third component of 1.2. 3 holds a space, a
    character that is not a digit, and [parse_version] returns (1, 2, 3). *)
Lemma parse_version_accepts_space :
  Py.split "." "1.2. 3" = ["1"; "2"; " 3"] /\
  all_chars is_digit " 3" = false /\
  parse_version "1.2. 3" = Ok (1, 2, 3)%Z.
Proof. repeat split. Qed.

(** C8, as the code has it. When the string has three components and one of
    them holds a character that is neither a digit, nor white space, nor a
    sign, nor an underscore, [parse_version] raises the conversion error of
    [int] on one of the components. *)
Theorem parse_version_foreign_char (version a b c : string) :
  Py.split "." version = [a; b; c] ->
  all_chars literal_char a && all_chars literal_char b
    && all_chars literal_char c = false ->
  exists s, In s [a; b; c] /\
            parse_version version = Raise (InvalidLiteralForInt s).
Proof.
  intros Hs Hf. unfold parse_version. rewrite Hs.
  destruct (Py.int a) as [x|e] eqn:Ea.
  2:{ exists a. apply int_raise in Ea as ->. simpl. auto. }
  destruct (Py.int b) as [y|e] eqn:Eb.
  2:{ exists b. apply int_raise in Eb as ->. simpl. auto. }
  destruct (Py.int c) as [z|e] eqn:Ec.
  2:{ exists c. apply int_raise in Ec as ->. simpl. auto. }
  apply int_chars in Ea, Eb, Ec. rewrite Ea, Eb, Ec in Hf. discriminate.
Qed.

Lemma parse_version_foreign_char_witness :
  exists s, In s ["1"; "2"; "x"] /\
            parse_version "1.2.x" = Raise (InvalidLiteralForInt s).
Proof.
  apply (parse_version_foreign_char "1.2.x" "1" "2" "x"); reflexivity.
Defined.

(** ** Replacement templates without backslash *)

Lemma tokenize_literal (s : string) :
  no_backslash s = true -> Re.tokenize s = Some (literal_tokens s).
Proof.
  unfold no_backslash. induction s as [|c s IH]; simpl; [reflexivity|].
  intros [Hc Hs]%andb_true_iff. apply negb_true_iff in Hc.
  now rewrite Hc, (IH Hs).
Qed.

Lemma parse_template_literal (groups : nat) (s : string) :
  Re.parse_template groups None (literal_tokens s) = Some (literal_pieces s).
Proof. induction s as [|c s IH]; simpl; [reflexivity|]. now rewrite IH. Qed.

Lemma compile_template_literal (p : Re.pattern) (repl : string) :
  no_backslash repl = true ->
  Re.compile_template p repl = Some (literal_pieces repl).
Proof.
  intros H. unfold Re.compile_template.
  now rewrite (tokenize_literal _ H), parse_template_literal.
Qed.

Lemma expand_literal (repl m : string) (g : option string) :
  Re.expand (literal_pieces repl) m g = repl.
Proof. induction repl as [|c r IH]; simpl; [reflexivity|]. now rewrite IH. Qed.

(** ** Substitution when nothing matches *)

Lemma sub_from_no_match (p : Re.pattern) (t : list Re.piece) (s : string) :
  forall bol, Re.search_from p bol s = None -> Re.sub_from p t bol 0 s = s.
Proof.
  induction s as [|c s IH]; intros bol; simpl.
  - destruct (Re.match_here p bol None None "") as [[rest g]|]; 
      [discriminate|reflexivity].
  - destruct (Re.match_here p bol None None (String c s)) as [[rest g]|];
      [discriminate|].
    intros H. now rewrite (IH _ H).
Qed.

Lemma sub_no_match (p : Re.pattern) (repl s : string) :
  no_backslash repl = true ->
  Re.search p s = None ->
  Re.sub p repl s = Ok s.
Proof.
  intros Hr Hs. unfold Re.sub. rewrite (compile_template_literal _ _ Hr).
  now rewrite sub_from_no_match.
Qed.

Lemma no_backslash_app (a b : string) :
  no_backslash (a ++ b) = no_backslash a && no_backslash b.
Proof. apply all_chars_app. Qed.

Lemma no_backslash_quoted (s : string) :
  no_backslash s = true -> no_backslash (quoted s) = true.
Proof.
  intros H. unfold quoted.
  change (String dq s ++ String dq "")%string
    with (String dq (s ++ String dq ""))%string.
  unfold no_backslash in *. cbn [all_chars]. rewrite all_chars_app, H.
  reflexivity.
Qed.

(** C5. When the Current Version block pattern does not occur in the
    documentation file, [update_version_md] (with a version and a build free
    of backslashes, as every pair [bump_version] returns is) raises nothing,
    writes the file back with the content it read and prints the
    confirmation line. *)
Theorem update_version_md_no_match (version build content : string)
    (w : project) :
  version_md w = Some content ->
  Re.search current_version_re content = None ->
  no_backslash version = true ->
  no_backslash build = true ->
  update_version_md version build w
  = (Ok tt, store VersionMd content w,
     [Wrote VersionMd content; Printed (MsgUpdated VersionMd)]).
Proof.
  intros Hf Hs Hv Hb.
  assert (Hr : no_backslash (current_version_block version build) = true).
  { unfold current_version_block. rewrite !no_backslash_app, Hv, Hb.
    reflexivity. }
  unfold update_version_md, bind, read_text, lift, write_text, print.
  cbn [content_of]. rewrite Hf, (sub_no_match _ _ _ Hr Hs). reflexivity.
Qed.

Lemma update_version_md_no_match_witness :
  update_version_md "0.2.7" "0001"
    (sample_tree "0.2.6" "0007" sample_manifest "# Version Management")
  = (Ok tt,
     store VersionMd "# Version Management"
       (sample_tree "0.2.6" "0007" sample_manifest "# Version Management"),
     [Wrote VersionMd "# Version Management";
      Printed (MsgUpdated VersionMd)]).
Proof.
  apply (update_version_md_no_match "0.2.7" "0001" "# Version Management"
           (sample_tree "0.2.6" "0007" sample_manifest
              "# Version Management"));
    reflexivity.
Defined.

(** ** Running the methods *)

Lemma bind_ok {A B : Type} (m : M A) (f : A -> M B) (w w1 : project)
    (a : A) (l1 : list event) :
  m w = (Ok a, w1, l1) ->
  bind m f w = (let '(r, w2, l2) := f a w1 in (r, w2, l1 ++ l2)).
Proof.
  intros H. unfold bind. rewrite H. now destruct (f a w1) as [[r w2] l2].
Qed.


(** Reading the stored pair changes nothing and prints nothing. *)
Lemma get_current_version_pure (w : project) :
  get_current_version w = (outcome get_current_version w, w, []).
Proof.
  unfold outcome, get_current_version, bind, read_text, ret, raise.
  destruct (content_of VersionRs w) as [content|]; [|reflexivity].
  destruct (Re.search version_group_re content);
    destruct (Re.search build_group_re content); reflexivity.
Qed.


Lemma bump_version_run (bump_type : string) (w : project) :
  bump_version bump_type w =
  (match outcome get_current_version w with
   | Ok (v, b) =>
       match parse_version v with
       | Ok (major, minor, patch) => bump_rule bump_type v b major minor patch
       | Raise e => Raise e
       end
   | Raise e => Raise e
   end, w, []).
Proof.
  unfold bump_version, bind. rewrite (get_current_version_pure w).
  destruct (outcome get_current_version w) as [[v b]|e]; [|reflexivity].
  unfold lift. destruct (parse_version v) as [[[major minor] patch]|e];
    [|reflexivity].
  unfold bump_rule, ret, raise.
  destruct (String.eqb bump_type "major"); [reflexivity|].
  destruct (String.eqb bump_type "minor"); [reflexivity|].
  destruct (String.eqb bump_type "patch"); [reflexivity|].
  destruct (String.eqb bump_type "build"); [|reflexivity].
  destruct (Py.int b); reflexivity.
Qed.

(** C1. For every stored version that parses as three integers,
    [bump_version] follows the rule table: major gives (major+1).0.0, minor
    gives major.(minor+1).0, patch gives major.minor.(patch+1), and in the
    three cases the build is 0001. Nothing is written or printed. *)
Theorem bump_version_rule_table (w : project) (version build : string)
    (major minor patch : Z) :
  outcome get_current_version w = Ok (version, build) ->
  parse_version version = Ok (major, minor, patch) ->
  bump_version "major" w
    = (Ok (format_version (major + 1) 0 0, "0001"), w, []) /\
  bump_version "minor" w
    = (Ok (format_version major (minor + 1) 0, "0001"), w, []) /\
  bump_version "patch" w
    = (Ok (format_version major minor (patch + 1), "0001"), w, []).
Proof.
  intros Hg Hp. rewrite !bump_version_run, Hg, Hp. repeat split.
Qed.

Lemma bump_version_rule_table_witness :
  bump_version "major" (sample_project "1.9.9" "0007")
    = (Ok ("2.0.0", "0001"), sample_project "1.9.9" "0007", []) /\
  bump_version "minor" (sample_project "1.9.9" "0007")
    = (Ok ("1.10.0", "0001"), sample_project "1.9.9" "0007", []) /\
  bump_version "patch" (sample_project "1.9.9" "0007")
    = (Ok ("1.9.10", "0001"), sample_project "1.9.9" "0007", []).
Proof.
  apply (bump_version_rule_table (sample_project "1.9.9" "0007")
           "1.9.9" "0007" 1 9 9); reflexivity.
Defined.

(** C2, refuted as stated. The stored build 0007 is a decimal numeral, the
    stored version 1.2 does not parse, and [bump_version] on build raises
    the format error where the claim has it return: the version is parsed
    before the bump type is looked at. *)
Lemma bump_build_malformed_version :
  decimal_numeral "0007" = true /\
  outcome get_current_version (sample_project "1.2" "0007")
    = Ok ("1.2", "0007") /\
  bump_version "build" (sample_project "1.2" "0007")
    = (Raise (InvalidVersionFormat "1.2"), sample_project "1.2" "0007", []).
Proof. repeat split. Qed.

Lemma zeros_length (n : nat) : String.length (Py.zeros n) = n.
Proof. induction n; simpl; congruence. Qed.

Lemma append_length (a b : string) :
  String.length (a ++ b) = String.length a + String.length b.
Proof. induction a; simpl; congruence. Qed.

(** C2, as the code has it. For every stored pair whose version
    [parse_version] accepts and whose build is a decimal numeral,
    [bump_version] on build returns the version string unchanged and the
    build number plus one in the [04d] format: padded with zeros to four
    digits, wider beyond; 9999 gives 10000. *)
Theorem bump_build_counter (w : project) (version build : string)
    (major minor patch : Z) :
  outcome get_current_version w = Ok (version, build) ->
  parse_version version = Ok (major, minor, patch) ->
  decimal_numeral build = true ->
  exists build_num,
    Py.int build = Ok build_num /\ (0 <= build_num)%Z /\
    bump_version "build" w
      = (Ok (version, Py.format_04d (build_num + 1)), w, []) /\
    Py.format_04d (build_num + 1)
      = (Py.zeros (4 - String.length (Py.str (build_num + 1)))
         ++ Py.str (build_num + 1))%string /\
    4 <= String.length (Py.format_04d (build_num + 1)) /\
    (build_num = 9999%Z -> Py.format_04d (build_num + 1) = "10000").
Proof.
  intros Hg Hp Hb.
  pose proof Hb as Hb'. unfold decimal_numeral in Hb'.
  apply andb_true_iff in Hb' as [_ Hd].
  destruct (uint_of_digits build Hd) as [d Ed].
  destruct (int_digits build d Hb Ed) as [Hi _].
  assert (Hn : (0 <= Z.of_uint d)%Z) by (unfold Z.of_uint; lia).
  exists (Z.of_uint d).
  assert (Hf : Py.format_04d (Z.of_uint d + 1)
     = (Py.zeros (4 - String.length (Py.str (Z.of_uint d + 1)))
         ++ Py.str (Z.of_uint d + 1))%string).
  { unfold Py.format_04d.
    destruct (Z.ltb_spec (Z.of_uint d + 1) 0) as [|_]; [lia|].
    rewrite Z.abs_eq by lia. cbn [String.length append].
    now rewrite Nat.sub_0_r. }
  repeat split; try assumption.
  - rewrite bump_version_run, Hg, Hp. unfold bump_rule.
    cbn [String.eqb Ascii.eqb Bool.eqb]. now rewrite Hi.
  - rewrite Hf, append_length, zeros_length. lia.
  - intros ->. reflexivity.
Qed.

Lemma bump_build_counter_witness :
  exists build_num,
    Py.int "9999" = Ok build_num /\ (0 <= build_num)%Z /\
    bump_version "build" (sample_project "0.2.6" "9999")
      = (Ok ("0.2.6", Py.format_04d (build_num + 1)),
         sample_project "0.2.6" "9999", []) /\
    Py.format_04d (build_num + 1)
      = (Py.zeros (4 - String.length (Py.str (build_num + 1)))
         ++ Py.str (build_num + 1))%string /\
    4 <= String.length (Py.format_04d (build_num + 1)) /\
    (build_num = 9999%Z -> Py.format_04d (build_num + 1) = "10000").
Proof.
  apply (bump_build_counter (sample_project "0.2.6" "9999")
           "0.2.6" "9999" 0 2 6); reflexivity.
Defined.





(** ** No backslash in what the script substitutes *)

Lemma all_chars_join (f : ascii -> bool) (sep : ascii) (parts : list string) :
  f sep = true ->
  Forall (fun p => all_chars f p = true) parts ->
  all_chars f (Py.join (String sep "") parts) = true.
Proof.
  intros Hsep. induction 1 as [|p parts Hp _ IH]; [reflexivity|].
  destruct parts as [|q parts]; [exact Hp|].
  change (Py.join (String sep "") (p :: q :: parts))
    with (p ++ String sep (Py.join (String sep "") (q :: parts)))%string.
  rewrite all_chars_app, Hp. cbn [all_chars]. now rewrite Hsep, IH.
Qed.

Lemma version_char_no_backslash (c : ascii) :
  version_char c = true -> negb (Ascii.eqb c bs) = true.
Proof.
  intros H. apply negb_true_iff.
  destruct (Ascii.eqb_spec c bs) as [->|]; [discriminate H|reflexivity].
Qed.

Lemma parse_version_chars (version : string) (t : Z * Z * Z) :
  parse_version version = Ok t -> all_chars version_char version = true.
Proof.
  unfold parse_version. intros H.
  rewrite <- (join_split "." version).
  destruct (Py.split "." version) as [|a [|b [|c [|d l]]]]; try discriminate H.
  destruct (Py.int a) eqn:Ea; [|discriminate H].
  destruct (Py.int b) eqn:Eb; [|discriminate H].
  destruct (Py.int c) eqn:Ec; [|discriminate H].
  apply int_chars in Ea, Eb, Ec.
  assert (W : forall s, all_chars literal_char s = true ->
                        all_chars version_char s = true).
  { intros s. apply all_chars_weaken. intros x Hx. unfold version_char.
    now rewrite Hx. }
  apply all_chars_join; [reflexivity|]. repeat constructor; auto.
Qed.









(** ** The methods that leave the manifest alone *)

Lemma run_eta {A : Type} (m : M A) (w : project) :
  m w = (outcome m w, project_after m w, events m w).
Proof.
  unfold outcome, project_after, events. now destruct (m w) as [[r w1] l].
Qed.



Lemma events_bind_raise {A B : Type} (m : M A) (f : A -> M B) (w w1 : project)
    (e : exn) (l1 : list event) :
  m w = (Raise e, w1, l1) ->
  events (bind m f) w = l1 /\
  project_after (bind m f) w = w1 /\
  outcome (bind m f) w = Raise e.
Proof.
  intros H. unfold events, project_after, outcome, bind. now rewrite H.
Qed.











(** ** The updates on a present file and a plain replacement *)

Lemma sub_literal (p : Re.pattern) (repl s : string) :
  no_backslash repl = true ->
  Re.sub p repl s = Ok (Re.sub_from p (literal_pieces repl) true 0 s).
Proof.
  intros H. unfold Re.sub. now rewrite (compile_template_literal _ _ H).
Qed.


Lemma update_cargo_toml_run (version content : string) (w : project) :
  cargo_toml w = Some content ->
  no_backslash version = true ->
  update_cargo_toml version w
  = (Ok tt,
     store CargoToml
       (Re.sub_from cargo_re
          (literal_pieces ("version = " ++ quoted version)) true 0 content) w,
     [Wrote CargoToml
        (Re.sub_from cargo_re
           (literal_pieces ("version = " ++ quoted version)) true 0 content);
      Printed (MsgUpdated CargoToml)]).
Proof.
  intros Hf Hv.
  assert (Hr : no_backslash ("version = " ++ quoted version) = true).
  { rewrite no_backslash_app, no_backslash_quoted by exact Hv. reflexivity. }
  unfold update_cargo_toml, bind, read_text, lift, write_text, print.
  cbn [content_of]. now rewrite Hf, (sub_literal _ _ _ Hr).
Qed.

Lemma bump_run (bump_type : string) (w : project) :
  bump bump_type w =
  match outcome get_current_version w with
  | Ok (ov, ob) =>
      match outcome (bump_version bump_type) w with
      | Ok (nv, nb) => bump_writes bump_type ov ob nv nb w
      | Raise e => (Raise e, w, [])
      end
  | Raise e => (Raise e, w, [])
  end.
Proof.
  unfold bump. unfold bind at 1. rewrite (get_current_version_pure w).
  destruct (outcome get_current_version w) as [[ov ob]|e]; [|reflexivity].
  unfold bind at 1. rewrite (bump_version_run bump_type w).
  unfold outcome at 2. rewrite (bump_version_run bump_type w). cbn [fst snd].
  match goal with |- context [match ?r with Ok _ => _ | Raise _ => _ end] =>
    destruct r as [[nv nb]|e] end; [|reflexivity].
  unfold bump_writes.
  now destruct (bind _ _ w) as [[r w2] l2].
Qed.






(** ** The manifest pattern, line by line *)

Lemma match_lit (pre : string) (p : Re.pattern) (opened grp : option string) :
  forall bol s,
    Re.match_here (Re.lit pre ++ p) bol opened grp s
    = match strip_prefix pre s with
      | Some r => Re.match_here p (bol_after bol pre) opened grp r
      | None => None
      end.
Proof.
  induction pre as [|c pre IH]; intros bol s; [reflexivity|].
  cbn [Re.lit app Re.match_here strip_prefix bol_after].
  destruct s as [|x s]; [reflexivity|].
  destruct (Ascii.eqb_spec x c) as [->|]; [apply IH|reflexivity].
Qed.

Lemma cls_not_false (x c : ascii) : Re.cls_not x c = false -> c = x.
Proof. unfold Re.cls_not. intros H%negb_false_iff. now apply Ascii.eqb_eq. Qed.

Lemma greedy_quote (grp : option string)
    (k : bool -> string -> option (string * option string)) :
  (forall b c t, k b (String c t)
                 = if Ascii.eqb c dq then Some (t, grp) else None) ->
  (forall b, k b EmptyString = None) ->
  forall s bol,
    Re.greedy (Re.cls_not dq) k bol s
    = match snd (Py.span (Re.cls_not dq) s) with
      | String _ rest => Some (rest, grp)
      | EmptyString => None
      end.
Proof.
  intros Hk Hk0. induction s as [|c s IH]; intros bol; [apply Hk0|].
  cbn [Re.greedy Py.span].
  destruct (Re.cls_not dq c) eqn:Hc.
  - rewrite IH. destruct (Py.span (Re.cls_not dq) s) as [x r']. cbn [snd].
    destruct r' as [|q rest]; [|reflexivity].
    rewrite Hk. unfold Re.cls_not in Hc.
    apply negb_true_iff in Hc. now rewrite Hc.
  - cbn [snd]. rewrite Hk. apply cls_not_false in Hc as ->.
    now rewrite Ascii.eqb_refl.
Qed.

Lemma match_quoted (opened grp : option string) (bol : bool) (s : string) :
  Re.match_here [Re.Plus (Re.cls_not dq); Re.Chr dq] bol opened grp s
  = match Py.span (Re.cls_not dq) s with
    | (String _ _, String _ rest) => Some (rest, grp)
    | _ => None
    end.
Proof.
  destruct s as [|c s]; [reflexivity|].
  change (Re.match_here [Re.Plus (Re.cls_not dq); Re.Chr dq] bol opened grp
            (String c s))
    with (if Re.cls_not dq c
          then Re.greedy (Re.cls_not dq)
                 (fun b t => Re.match_here [Re.Chr dq] b opened grp t)
                 (Ascii.eqb c nl) s
          else None).
  cbn [Py.span].
  destruct (Re.cls_not dq c); [|reflexivity].
  rewrite (greedy_quote grp); [| |reflexivity].
  - now destruct (Py.span (Re.cls_not dq) s) as [x r'].
  - intros b x t. cbn [Re.match_here]. now destruct (Ascii.eqb x dq).
Qed.

Lemma cargo_re_shape :
  cargo_re = Re.Bol :: Re.lit declaration
               ++ [Re.Plus (Re.cls_not dq); Re.Chr dq].
Proof. reflexivity. Qed.

Lemma match_cargo (bol : bool) (s : string) :
  Re.match_here cargo_re bol None None s
  = if bol then
      match strip_prefix declaration s with
      | Some r =>
          match Py.span (Re.cls_not dq) r with
          | (String _ _, String _ rest) => Some (rest, None)
          | _ => None
          end
      | None => None
      end
    else None.
Proof.
  rewrite cargo_re_shape. cbn [Re.match_here].
  destruct bol; [|reflexivity].
  rewrite match_lit. destruct (strip_prefix declaration s); [|reflexivity].
  apply match_quoted.
Qed.

Lemma strip_prefix_app (pre l t r : string) :
  strip_prefix pre l = Some r ->
  strip_prefix pre (l ++ t) = Some (r ++ t)%string.
Proof.
  revert l. induction pre as [|p pre IH]; intros l; cbn [strip_prefix].
  - now intros [= ->].
  - destruct l as [|c l]; [discriminate|]. cbn [append].
    destruct (Ascii.eqb c p); [apply IH|discriminate].
Qed.

Lemma strip_prefix_app_none (pre l t : string) :
  no_newline pre = true -> line_end t = true ->
  strip_prefix pre l = None -> strip_prefix pre (l ++ t) = None.
Proof.
  revert l. induction pre as [|p pre IH]; intros l Hp Ht; cbn [strip_prefix];
    [discriminate|].
  unfold no_newline in Hp. cbn [all_chars] in Hp.
  apply andb_true_iff in Hp as [Hp Hpre].
  destruct l as [|c l]; cbn [append].
  - intros _. destruct t as [|c t]; [reflexivity|].
    cbn [line_end] in Ht. apply Ascii.eqb_eq in Ht as ->.
    unfold Re.cls_not in Hp. apply negb_true_iff in Hp.
    rewrite Ascii.eqb_sym. now rewrite Hp.
  - destruct (Ascii.eqb c p); [now apply IH|reflexivity].
Qed.

Lemma span_app_stop (f : ascii -> bool) (r x rest t : string) (q : ascii) :
  Py.span f r = (x, String q rest) ->
  Py.span f (r ++ t) = (x, String q (rest ++ t)).
Proof.
  revert x. induction r as [|c r IH]; intros x; cbn [Py.span append];
    [discriminate|].
  destruct (f c).
  - destruct (Py.span f r) as [x' r'] eqn:E. intros [= <- ->].
    now rewrite (IH x' eq_refl).
  - now intros [= <- <- <-].
Qed.

Lemma span_all_iff (f : ascii -> bool) (r : string) :
  all_chars f r = false -> exists x q rest, Py.span f r = (x, String q rest).
Proof.
  induction r as [|c r IH]; cbn [all_chars Py.span]; [discriminate|].
  destruct (f c); cbn [andb].
  - intros H. destruct (IH H) as (x & q & rest & ->). now eauto.
  - eauto.
Qed.

(** The match at the start of a terminated line does not look past it. *)
Lemma match_cargo_line (l t : string) :
  unterminated l = false -> line_end t = true ->
  Re.match_here cargo_re true None None (l ++ t)
  = match strip_prefix declaration l with
    | Some r =>
        match Py.span (Re.cls_not dq) r with
        | (String _ _, String _ rest) => Some ((rest ++ t)%string, None)
        | _ => None
        end
    | None => None
    end.
Proof.
  intros Hu Ht. rewrite match_cargo. unfold unterminated in Hu.
  destruct (strip_prefix declaration l) as [r|] eqn:Hs.
  - rewrite (strip_prefix_app _ _ t _ Hs).
    destruct (span_all_iff _ _ Hu) as (x & q & rest & Hx).
    rewrite Hx, (span_app_stop _ _ _ _ t _ Hx). now destruct x.
  - now rewrite strip_prefix_app_none.
Qed.

Lemma append_assoc (a b c : string) :
  ((a ++ b) ++ c)%string = (a ++ (b ++ c))%string.
Proof. induction a; simpl; congruence. Qed.

Section ManifestLines.

Variable t : list Re.piece.

Lemma sub_from_end (bol : bool) (rest : string) :
  line_end rest = true ->
  Re.match_here cargo_re bol None None rest = None ->
  Re.sub_from cargo_re t bol 0 rest = sub_rest t rest.
Proof.
  intros He Hm. destruct rest as [|c r]; cbn [Re.sub_from]; rewrite Hm;
    [reflexivity|].
  cbn [line_end] in He. now rewrite He.
Qed.

Lemma match_cargo_end (bol : bool) (rest : string) :
  line_end rest = true ->
  Re.match_here cargo_re bol None None rest = None.
Proof.
  intros He. rewrite match_cargo. destruct bol; [|reflexivity].
  pose proof (strip_prefix_app_none declaration "" rest eq_refl He eq_refl)
    as H.
  cbn [append] in H. now rewrite H.
Qed.

(** Inside a line nothing matches: the rest of the line is copied. *)
Lemma sub_from_inside (l rest : string) :
  no_newline l = true -> line_end rest = true ->
  Re.sub_from cargo_re t false 0 (l ++ rest) = (l ++ sub_rest t rest)%string.
Proof.
  intros Hl He. induction l as [|c l IH]; cbn [append].
  - apply sub_from_end; [exact He|]. now apply match_cargo_end.
  - unfold no_newline in Hl. cbn [all_chars] in Hl.
    apply andb_true_iff in Hl as [Hc Hl].
    cbn [Re.sub_from]. rewrite match_cargo.
    unfold Re.cls_not in Hc. apply negb_true_iff in Hc. rewrite Hc.
    now rewrite (IH Hl).
Qed.

(** Passing over the characters of a match. *)
Lemma sub_from_skip (u s : string) :
  forall bol,
    Re.sub_from cargo_re t bol (String.length u) (u ++ s)
    = Re.sub_from cargo_re t (bol_after bol u) 0 s.
Proof.
  induction u as [|c u IH]; intros bol; [reflexivity|].
  cbn [String.length append Re.sub_from bol_after]. apply IH.
Qed.

Lemma bol_after_no_newline (u : string) (bol : bool) :
  no_newline u = true -> u <> EmptyString -> bol_after bol u = false.
Proof.
  revert bol. induction u as [|c u IH]; intros bol Hu Hne; [now elim Hne|].
  unfold no_newline in Hu. cbn [all_chars] in Hu.
  apply andb_true_iff in Hu as [Hc Hu].
  unfold Re.cls_not in Hc. apply negb_true_iff in Hc.
  cbn [bol_after]. rewrite Hc.
  destruct u as [|c' u]; [reflexivity|]. now apply IH.
Qed.

Lemma sub_from_unmatched (l rest : string) :
  no_newline l = true -> line_end rest = true ->
  Re.match_here cargo_re true None None (l ++ rest) = None ->
  Re.sub_from cargo_re t true 0 (l ++ rest) = (l ++ sub_rest t rest)%string.
Proof.
  intros Hl He Hm. destruct l as [|c l]; cbn [append] in *.
  - now apply sub_from_end.
  - unfold no_newline in Hl. cbn [all_chars] in Hl.
    apply andb_true_iff in Hl as [Hc Hl].
    unfold Re.cls_not in Hc. apply negb_true_iff in Hc.
    cbn [Re.sub_from]. rewrite Hm, Hc. now rewrite sub_from_inside.
Qed.

End ManifestLines.

Lemma strip_prefix_eq (pre l r : string) :
  strip_prefix pre l = Some r -> l = (pre ++ r)%string.
Proof.
  revert l. induction pre as [|p pre IH]; intros l; cbn [strip_prefix append].
  - now intros [= ->].
  - destruct l as [|c l]; [discriminate|].
    destruct (Ascii.eqb_spec c p) as [->|]; [|discriminate].
    intros H. now rewrite (IH _ H).
Qed.

Lemma span_stop (f : ascii -> bool) (r x rest : string) (q : ascii) :
  Py.span f r = (x, String q rest) -> f q = false.
Proof.
  revert x. induction r as [|c r IH]; intros x; cbn [Py.span]; [discriminate|].
  destruct (f c) eqn:Hc.
  - destruct (Py.span f r) as [x' r']. intros [= <- ->]. now apply (IH x').
  - now intros [= <- <- <-].
Qed.

Lemma consumed_app (m z : string) : Re.consumed (m ++ z) z = String.length m.
Proof. unfold Re.consumed. rewrite append_length. lia. Qed.

Lemma no_newline_app (a b : string) :
  no_newline (a ++ b) = no_newline a && no_newline b.
Proof. apply all_chars_app. Qed.

(** One line of the manifest under [re.sub]. *)
Lemma sub_from_line (version l rest : string) :
  no_newline l = true -> unterminated l = false -> line_end rest = true ->
  Re.sub_from cargo_re (literal_pieces ("version = " ++ quoted version))
    true 0 (l ++ rest)
  = (rewrite_line version l
     ++ sub_rest (literal_pieces ("version = " ++ quoted version)) rest)%string.
Proof.
  intros Hl Hu He.
  remember (literal_pieces ("version = " ++ quoted version)) as t eqn:Et.
  assert (Hex : forall mm g,
            Re.expand t mm g = ("version = " ++ quoted version)%string)
    by (intros; subst t; apply expand_literal).
  clear Et.
  pose proof (match_cargo_line l rest Hu He) as Hm.
  unfold rewrite_line.
  destruct (strip_prefix declaration l) as [r|] eqn:Hs;
    [|now apply sub_from_unmatched].
  destruct (Py.span (Re.cls_not dq) r) as [x r'] eqn:Hx.
  destruct x as [|c0 x]; [now apply sub_from_unmatched|].
  destruct r' as [|q rest0]; [now apply sub_from_unmatched|].
  apply strip_prefix_eq in Hs. pose proof (span_stop _ _ _ _ _ Hx) as Hq.
  apply cls_not_false in Hq. subst q.
  destruct (span_app _ _ _ _ Hx) as [Hr _]. subst r l.
  set (m := (declaration ++ String c0 x ++ String dq "")%string).
  assert (Hsplit : ((declaration ++ String c0 x ++ String dq rest0) ++ rest
                    = m ++ (rest0 ++ rest))%string).
  { unfold m. rewrite !append_assoc. reflexivity. }
  rewrite Hsplit in Hm |- *.
  assert (Hnm : no_newline m = true /\ no_newline rest0 = true).
  { unfold m. rewrite !no_newline_app in Hl |- *.
    apply andb_true_iff in Hl as [Hd Hl].
    apply andb_true_iff in Hl as [Hx' Hl].
    unfold no_newline in Hl. cbn [all_chars] in Hl.
    apply andb_true_iff in Hl as [_ Hl].
    now rewrite Hd, Hx'. }
  destruct Hnm as [Hnm Hn0].
  assert (Hm' : exists c m', m = String c m') by (now eexists; eexists).
  destruct Hm' as (c & m' & Em). clearbody m. subst m.
  cbn [append] in Hm |- *. cbn [Re.sub_from]. rewrite Hm.
  change (String c (m' ++ rest0 ++ rest))
    with (String c m' ++ (rest0 ++ rest))%string.
  rewrite consumed_app, Hex. cbn [String.length Nat.eqb].
  replace (S (String.length m') - 1) with (String.length m') by lia.
  rewrite sub_from_skip.
  change (bol_after (Ascii.eqb c nl) m') with (bol_after true (String c m')).
  rewrite bol_after_no_newline by (exact Hnm || discriminate).
  rewrite sub_from_inside by assumption.
  generalize (sub_rest t rest). intros z.
  unfold quoted, declaration. rewrite !append_assoc. reflexivity.
Qed.

(** ** The manifest update, over all lines *)

Lemma split_no_sep (sep : ascii) (s : string) :
  Forall (fun l => all_chars (Re.cls_not sep) l = true) (Py.split sep s).
Proof.
  induction s as [|c s IH]; cbn [Py.split]; [now repeat constructor|].
  destruct (Ascii.eqb c sep) eqn:Hc; [now constructor|].
  pose proof (split_nonempty sep s) as Hne.
  destruct (Py.split sep s) as [|h rest]; [now elim Hne|].
  inversion IH as [|? ? Hh Hrest]; subst. constructor; [|exact Hrest].
  cbn [all_chars]. unfold Re.cls_not at 1. now rewrite Hc, Hh.
Qed.

Lemma sub_from_lines (version : string) (lines : list string) :
  Forall (fun l => no_newline l = true) lines ->
  forallb (fun l => negb (unterminated l)) lines = true ->
  Re.sub_from cargo_re (literal_pieces ("version = " ++ quoted version))
    true 0 (unlines lines)
  = unlines (map (rewrite_line version) lines).
Proof.
  induction 1 as [|l lines Hl _ IH]; [reflexivity|].
  cbn [forallb]. intros [Hu Hrest]%andb_true_iff.
  apply negb_true_iff in Hu.
  destruct lines as [|l2 lines].
  - cbn [unlines Py.join map]. rewrite <- (append_nil_r l) at 1.
    rewrite (sub_from_line version l "" Hl Hu eq_refl).
    cbn [sub_rest]. apply append_nil_r.
  - change (unlines (l :: l2 :: lines))
      with (l ++ String nl (unlines (l2 :: lines)))%string.
    rewrite (sub_from_line version l (String nl (unlines (l2 :: lines)))
               Hl Hu eq_refl).
    cbn [sub_rest]. rewrite (IH Hrest). reflexivity.
Qed.

Lemma rewrite_line_other (version line : string) :
  declares line = false -> rewrite_line version line = line.
Proof.
  unfold declares, rewrite_line.
  destruct (strip_prefix declaration line) as [r|]; [|reflexivity].
  destruct (Py.span (Re.cls_not dq) r) as [[|c x] [|q rest]];
    try reflexivity. discriminate.
Qed.

Lemma strip_prefix_self (pre r : string) :
  strip_prefix pre (pre ++ r) = Some r.
Proof.
  induction pre as [|p pre IH]; [reflexivity|].
  cbn [append strip_prefix]. now rewrite Ascii.eqb_refl.
Qed.

Lemma span_quote (x rest : string) :
  all_chars (Re.cls_not dq) x = true ->
  Py.span (Re.cls_not dq) (x ++ String dq rest) = (x, String dq rest).
Proof.
  induction x as [|c x IH]; cbn [append Py.span all_chars]; [reflexivity|].
  intros [Hc Hx]%andb_true_iff. now rewrite Hc, (IH Hx).
Qed.

Lemma rewrite_line_declaration (version old rest : string) :
  old <> EmptyString -> all_chars (Re.cls_not dq) old = true ->
  rewrite_line version (declaration ++ old ++ String dq rest)
  = (declaration ++ version ++ String dq rest)%string.
Proof.
  intros Hne Hold. unfold rewrite_line.
  rewrite strip_prefix_self, (span_quote _ _ Hold).
  destruct old; [now elim Hne|reflexivity].
Qed.

(** C4, refuted as stated. On a manifest with a package version and a
    dependency table declaring its own version, [update_cargo_toml] rewrites
    both declaration lines: the later one does not stay as it was, and the
    result differs from the one where only the first is rewritten. *)
Lemma update_cargo_toml_rewrites_later_line :
  let w := mkProject None (Some sample_manifest) None in
  let after :=
    unlines ["[package]";
             ("name = " ++ quoted "rustbot")%string;
             (declaration ++ "9.9.9" ++ String dq "")%string;
             "[dependencies.serde]";
             (declaration ++ "9.9.9" ++ String dq "")%string;
             ""] in
  update_cargo_toml "9.9.9" w
  = (Ok tt, mkProject None (Some after) None,
     [Wrote CargoToml after; Printed (MsgUpdated CargoToml)]) /\
  map declares (lines_of sample_manifest)
  = [false; false; true; false; true; false] /\
  nth 4 (lines_of after) "" <> nth 4 (lines_of sample_manifest) "" /\
  after <> unlines (rewrite_first "9.9.9" (lines_of sample_manifest)).
Proof.
  cbv zeta. split; [reflexivity|]. split; [reflexivity|].
  split; vm_compute; discriminate.
Qed.

(** C4, as the code has it. On a manifest in which every line that opens a
    declaration closes its quote on the same line, [update_cargo_toml] with
    a plain version writes the manifest with every line rewritten by
    [rewrite_line]:
    each line starting with a declaration of a non-empty version carries the
    new version and keeps its remainder, every other line is unchanged. *)
Theorem update_cargo_toml_all_lines (version content : string) (w : project) :
  cargo_toml w = Some content ->
  no_backslash version = true ->
  forallb (fun l => negb (unterminated l)) (lines_of content) = true ->
  update_cargo_toml version w
  = (Ok tt,
     store CargoToml
       (unlines (map (rewrite_line version) (lines_of content))) w,
     [Wrote CargoToml
        (unlines (map (rewrite_line version) (lines_of content)));
      Printed (MsgUpdated CargoToml)]) /\
  (forall line, declares line = false -> rewrite_line version line = line) /\
  (forall old rest,
     old <> EmptyString -> all_chars (Re.cls_not dq) old = true ->
     rewrite_line version (declaration ++ old ++ String dq rest)
     = (declaration ++ version ++ String dq rest)%string).
Proof.
  intros Hf Hv Hu. split; [|split].
  - rewrite (update_cargo_toml_run version content w Hf Hv).
    assert (Hc : Re.sub_from cargo_re
                   (literal_pieces ("version = " ++ quoted version))
                   true 0 content
                 = unlines (map (rewrite_line version) (lines_of content))).
    { rewrite <- (join_split nl content) at 1.
      apply sub_from_lines; [apply split_no_sep|exact Hu]. }
    now rewrite Hc.
  - apply rewrite_line_other.
  - apply rewrite_line_declaration.
Qed.

Lemma update_cargo_toml_all_lines_witness :
  update_cargo_toml "0.3.0" (sample_tree "0.2.6" "0007" sample_manifest "")
  = (Ok tt,
     store CargoToml
       (unlines (map (rewrite_line "0.3.0") (lines_of sample_manifest)))
       (sample_tree "0.2.6" "0007" sample_manifest ""),
     [Wrote CargoToml
        (unlines (map (rewrite_line "0.3.0") (lines_of sample_manifest)));
      Printed (MsgUpdated CargoToml)]).
Proof.
  apply (update_cargo_toml_all_lines "0.3.0" sample_manifest
           (sample_tree "0.2.6" "0007" sample_manifest ""));
    reflexivity.
Defined.

(** ** The manifest update when no line declares a version *)

Lemma rewrite_lines_other (version : string) (lines : list string) :
  forallb (fun l => negb (declares l)) lines = true ->
  map (rewrite_line version) lines = lines.
Proof.
  induction lines as [|l lines IH]; [reflexivity|].
  cbn [forallb map]. intros [Hl Hrest]%andb_true_iff.
  apply negb_true_iff in Hl.
  now rewrite (rewrite_line_other _ _ Hl), (IH Hrest).
Qed.

(** C10, refuted as stated. In a manifest whose declaration has its closing
    quote on the next line, no line matches the declaration form and one
    line opens a declaration that it does not close; the class of the
    pattern excludes the double quote only, so the match goes over the line
    feed, and [update_cargo_toml] writes a manifest that differs from the
    one it read. *)
Lemma update_cargo_toml_quote_on_next_line :
  let w := mkProject None (Some open_manifest) None in
  let after :=
    unlines ["[package]"; (declaration ++ "0.2.7" ++ String dq "")%string] in
  map declares (lines_of open_manifest) = [false; false; false] /\
  map unterminated (lines_of open_manifest) = [false; true; false] /\
  update_cargo_toml "0.2.7" w
  = (Ok tt, mkProject None (Some after) None,
     [Wrote CargoToml after; Printed (MsgUpdated CargoToml)]) /\
  after <> open_manifest.
Proof.
  cbv zeta. split; [reflexivity|]. split; [reflexivity|].
  split; [reflexivity|]. vm_compute. discriminate.
Qed.

(** C10, as the code has it. When no line of the manifest matches the
    anchored declaration and every line that opens a declaration closes its
    quote on the same line, [update_cargo_toml] (with a version free of
    backslashes) raises nothing, writes the manifest back with the content
    it read and prints the confirmation line. *)
Theorem update_cargo_toml_no_declaration_line (version content : string)
    (w : project) :
  cargo_toml w = Some content ->
  no_backslash version = true ->
  forallb (fun l => negb (declares l)) (lines_of content) = true ->
  forallb (fun l => negb (unterminated l)) (lines_of content) = true ->
  update_cargo_toml version w
  = (Ok tt, store CargoToml content w,
     [Wrote CargoToml content; Printed (MsgUpdated CargoToml)]).
Proof.
  intros Hf Hv Hd Hu.
  rewrite (update_cargo_toml_run version content w Hf Hv).
  assert (Hc : Re.sub_from cargo_re
                 (literal_pieces ("version = " ++ quoted version))
                 true 0 content
               = content).
  { rewrite <- (join_split nl content) at 1.
    fold (lines_of content). fold (unlines (lines_of content)).
    rewrite sub_from_lines; [|apply split_no_sep|exact Hu].
    rewrite (rewrite_lines_other _ _ Hd). apply join_split. }
  now rewrite Hc.
Qed.

Lemma update_cargo_toml_no_declaration_line_witness :
  update_cargo_toml "0.2.7"
    (sample_tree "0.2.6" "0007"
       (unlines ["[package]"; "version.workspace = true"; ""]) "")
  = (Ok tt,
     store CargoToml (unlines ["[package]"; "version.workspace = true"; ""])
       (sample_tree "0.2.6" "0007"
          (unlines ["[package]"; "version.workspace = true"; ""]) ""),
     [Wrote CargoToml
        (unlines ["[package]"; "version.workspace = true"; ""]);
      Printed (MsgUpdated CargoToml)]).
Proof.
  apply (update_cargo_toml_no_declaration_line "0.2.7"
           (unlines ["[package]"; "version.workspace = true"; ""])
           (sample_tree "0.2.6" "0007"
              (unlines ["[package]"; "version.workspace = true"; ""]) ""));
    reflexivity.
Defined.

(** * Further properties *)

(** ** The update methods, one file each *)

Lemma update_version_md_run (version build content : string) (w : project) :
  version_md w = Some content ->
  no_backslash version = true ->
  no_backslash build = true ->
  update_version_md version build w
  = (Ok tt,
     store VersionMd
       (Re.sub_from current_version_re
          (literal_pieces (current_version_block version build))
          true 0 content) w,
     [Wrote VersionMd
        (Re.sub_from current_version_re
           (literal_pieces (current_version_block version build))
           true 0 content);
      Printed (MsgUpdated VersionMd)]).
Proof.
  intros Hf Hv Hb.
  assert (Hr : no_backslash (current_version_block version build) = true).
  { unfold current_version_block. rewrite !no_backslash_app, Hv, Hb.
    reflexivity. }
  unfold update_version_md, bind, read_text, lift, write_text, print.
  cbn [content_of]. now rewrite Hf, (sub_literal _ _ _ Hr).
Qed.

(** X1. Whatever its arguments and whatever the project, an update method
    either raises with the project as it was and nothing written or
    printed, or returns after one write, of its own file, followed by the
    confirmation line for that file; the two other files are never
    touched. *)
Theorem update_all_or_nothing (u : update) (w : project) :
  (exists e, update_method u w = (Raise e, w, [])) \/
  (exists content,
     update_method u w
     = (Ok tt, store (update_file u) content w,
        [Wrote (update_file u) content;
         Printed (MsgUpdated (update_file u))])).
Proof.
  destruct u as [version build|version|version build];
    cbn [update_method update_file].
  - unfold update_version_rs, bind, read_text, lift, write_text, print.
    destruct (content_of VersionRs w) as [content|]; [|left; now eexists].
    destruct (Re.sub version_re _ content) as [c1|e]; [|left; now eexists].
    destruct (Re.sub build_re _ c1) as [c2|e]; [|left; now eexists].
    right. now eexists.
  - unfold update_cargo_toml, bind, read_text, lift, write_text, print.
    destruct (content_of CargoToml w) as [content|]; [|left; now eexists].
    destruct (Re.sub cargo_re _ content) as [c1|e]; [|left; now eexists].
    right. now eexists.
  - unfold update_version_md, bind, read_text, lift, write_text, print.
    destruct (content_of VersionMd w) as [content|]; [|left; now eexists].
    destruct (Re.sub current_version_re _ content) as [c1|e];
      [|left; now eexists].
    right. now eexists.
Qed.



(** ** Bumps move forward *)

(** X3. A major, minor or patch bump of a stored version that parses gives a
    version string that parses again, to the triple of the rule table, and
    that triple is strictly above the stored one in precedence order. *)
Theorem bump_version_increases (w : project) (version build : string)
    (major minor patch : Z) (bump_type : string) :
  outcome get_current_version w = Ok (version, build) ->
  parse_version version = Ok (major, minor, patch) ->
  bump_type = "major" \/ bump_type = "minor" \/ bump_type = "patch" ->
  exists new_version bumped,
    outcome (bump_version bump_type) w = Ok (new_version, "0001") /\
    parse_version new_version = Ok bumped /\
    version_lt (major, minor, patch) bumped /\
    bumped = (if String.eqb bump_type "major" then (major + 1, 0, 0)
              else if String.eqb bump_type "minor"
                   then (major, minor + 1, 0)
                   else (major, minor, patch + 1))%Z.
Proof.
  intros Hg Hp Ht. unfold outcome. rewrite bump_version_run, Hg, Hp.
  cbn [fst]. unfold bump_rule, version_lt.
  destruct Ht as [-> | [-> | ->]]; cbn [String.eqb Ascii.eqb Bool.eqb];
    eexists; eexists; (split; [reflexivity|]);
    (split; [apply parse_format_version|]); (split; [lia|reflexivity]).
Qed.

Lemma bump_version_increases_witness :
  exists new_version bumped,
    outcome (bump_version "minor") (sample_project "1.9.9" "0007")
      = Ok (new_version, "0001") /\
    parse_version new_version = Ok bumped /\
    version_lt (1, 9, 9)%Z bumped /\
    bumped = (1, 9 + 1, 0)%Z.
Proof.
  apply (bump_version_increases (sample_project "1.9.9" "0007")
           "1.9.9" "0007" 1 9 9 "minor"); auto.
Defined.

(** ** The build counter read back *)

Lemma uint_of_zeros (n : nat) (s : string) (d : Decimal.uint) :
  NilEmpty.uint_of_string s = Some d ->
  exists d', NilEmpty.uint_of_string (Py.zeros n ++ s) = Some d' /\
             Z.of_uint d' = Z.of_uint d.
Proof.
  intros Hs. induction n as [|n (d' & Hd & Hz)]; [now exists d|].
  exists (Decimal.D0 d'). cbn [Py.zeros append NilEmpty.uint_of_string].
  rewrite Hd. split; [reflexivity|]. rewrite <- Hz. reflexivity.
Qed.

Lemma zeros_digits (n : nat) (s : string) :
  decimal_numeral s = true -> decimal_numeral (Py.zeros n ++ s) = true.
Proof.
  unfold decimal_numeral. intros [Hne Hs]%andb_true_iff.
  apply andb_true_iff. split.
  - destruct n; [exact Hne|reflexivity].
  - rewrite all_chars_app, Hs, andb_true_r.
    induction n; [reflexivity|exact IHn].
Qed.

(** [int] reads back what the [04d] format printed. *)
Lemma int_format_04d (z : Z) : Py.int (Py.format_04d z) = Ok z.
Proof.
  unfold Py.format_04d.
  set (s := Py.str (Z.abs z)).
  assert (Hs : decimal_numeral s = true)
    by (apply str_nonneg_digits; lia).
  pose proof Hs as Hs'. unfold decimal_numeral in Hs'.
  apply andb_true_iff in Hs' as [_ Hd].
  destruct (uint_of_digits s Hd) as [d Ed].
  assert (Hz : Z.of_uint d = Z.abs z).
  { destruct (int_digits s d Hs Ed) as [Hi _].
    unfold s in Hi. rewrite int_str in Hi. now injection Hi. }
  destruct (Z.ltb_spec z 0) as [Hneg|Hpos].
  - cbn [String.length append].
    destruct (uint_of_zeros (4 - 1 - String.length s) s d Ed)
      as (d' & Ed' & Hz').
    destruct (int_digits _ d' (zeros_digits _ s Hs) Ed') as [_ Hi].
    rewrite Hi, Hz', Hz. f_equal. lia.
  - cbn [String.length append].
    destruct (uint_of_zeros (4 - 0 - String.length s) s d Ed)
      as (d' & Ed' & Hz').
    destruct (int_digits _ d' (zeros_digits _ s Hs) Ed') as [Hi _].
    rewrite Hi, Hz', Hz. f_equal. lia.
Qed.

Lemma format_04d_length (z : Z) : 4 <= String.length (Py.format_04d z).
Proof.
  unfold Py.format_04d. rewrite !append_length, zeros_length. lia.
Qed.

(** X4. For a stored pair that [get_current_version] finds and whose
    version [parse_version] accepts, a build bump works on every stored
    build that [int] accepts, signs, white space and underscores included:
    the version string is returned as stored, and the new build string has
    four characters or more and reads back with [int] as the stored number
    plus one. For such a pair whose build [int] rejects, the bump raises the
    conversion error of [int]. *)
Theorem bump_build_reads_back (w : project) (version build : string)
    (major minor patch : Z) :
  outcome get_current_version w = Ok (version, build) ->
  parse_version version = Ok (major, minor, patch) ->
  match Py.int build with
  | Ok build_num =>
      exists new_build,
        outcome (bump_version "build") w = Ok (version, new_build) /\
        Py.int new_build = Ok (build_num + 1)%Z /\
        4 <= String.length new_build
  | Raise _ =>
      outcome (bump_version "build") w = Raise (InvalidLiteralForInt build)
  end.
Proof.
  intros Hg Hp. unfold outcome. rewrite bump_version_run, Hg, Hp.
  cbn [fst]. unfold bump_rule. cbn [String.eqb Ascii.eqb Bool.eqb].
  destruct (Py.int build) as [n|e] eqn:Hi; cbn [rbind].
  - eexists. split; [reflexivity|].
    split; [apply int_format_04d|apply format_04d_length].
  - now rewrite (int_raise _ _ Hi).
Qed.

Lemma bump_build_reads_back_witness :
  exists new_build,
    outcome (bump_version "build") (sample_project "0.2.6" " -1_0 ")
      = Ok ("0.2.6", new_build) /\
    Py.int new_build = Ok (-10 + 1)%Z /\
    4 <= String.length new_build.
Proof.
  apply (bump_build_reads_back (sample_project "0.2.6" " -1_0 ")
           "0.2.6" " -1_0 " 0 2 6); reflexivity.
Defined.

(** ** The command line *)

Lemma show_run (w : project) :
  show w
  = match outcome get_current_version w with
    | Ok (version, build) =>
        (Ok tt, w,
         [Printed MsgCurrentVersion; Printed (MsgVersion version);
          Printed (MsgBuild build); Printed (MsgFull version build)])
    | Raise e => (Raise e, w, [])
    end.
Proof.
  unfold show. unfold bind at 1. rewrite (get_current_version_pure w).
  now destruct (outcome get_current_version w) as [[version build]|e].
Qed.

Lemma bump_rule_recognized (bump_type v b : string) (x y z : Z)
    (p : string * string) :
  bump_rule bump_type v b x y z = Ok p -> recognized bump_type = true.
Proof.
  unfold bump_rule, recognized.
  destruct (String.eqb bump_type "major"); [reflexivity|].
  destruct (String.eqb bump_type "minor"); [reflexivity|].
  destruct (String.eqb bump_type "patch"); [reflexivity|].
  destruct (String.eqb bump_type "build"); [reflexivity|discriminate].
Qed.

Lemma bump_version_ok_recognized (bump_type : string) (w : project)
    (p : string * string) :
  outcome (bump_version bump_type) w = Ok p -> recognized bump_type = true.
Proof.
  unfold outcome. rewrite bump_version_run. cbn [fst].
  destruct (outcome get_current_version w) as [[v b]|e]; [|discriminate].
  destruct (parse_version v) as [[[x y] z]|e]; [|discriminate].
  apply bump_rule_recognized.
Qed.

Lemma existsb_map_said (log : list main_event) (line : main_message) :
  existsb is_file_write (log ++ [Said line]) = existsb is_file_write log.
Proof. rewrite existsb_app. cbn. apply orb_false_r. Qed.

(** X5. [main] writes a file, or leaves the project other than it found
    it, only when it is called as bump with a recognized bump type on a
    project that has its manifest and a stored pair from which the new one
    is computed. No arguments, a missing manifest, show, bump without a
    type, an unknown command or an unknown bump type never write. *)
Theorem main_writes_only_on_bump (argv : list string) (w : project) :
  existsb is_file_write (output (main argv w)) = true \/
  project_left (main argv w) <> w ->
  exists script bump_type rest new_pair,
    argv = script :: "bump" :: bump_type :: rest /\
    recognized bump_type = true /\
    cargo_toml w <> None /\
    outcome (bump_version bump_type) w = Ok new_pair.
Proof.
  assert (Hno : forall status lines,
    ~ (existsb is_file_write (output (status, w, map Said lines)) = true \/
       project_left (status, w, map Said lines) <> w)).
  { intros status lines [H|H]; [|now apply H].
    unfold output in H. cbn [snd] in H.
    induction lines as [|l lines IH]; [discriminate|exact (IH H)]. }
  destruct argv as [|script [|command args]].
  1,2: intros H; now elim (Hno 1%Z [Usage]).
  cbn [main]. destruct (cargo_toml w) as [manifest|] eqn:Hm;
    [|intros H; now elim (Hno 1%Z [CouldNotFindCargoToml])].
  destruct (String.eqb command "show").
  { unfold run_command. rewrite show_run.
    destruct (outcome get_current_version w) as [[v b]|e].
    - intros [H|H]; [discriminate H|now elim H].
    - intros H. now elim (Hno 1%Z [CaughtError e]). }
  destruct (String.eqb_spec command "bump") as [->|_];
    [|intros H; now elim (Hno 1%Z [UnknownCommand command; Usage])].
  destruct args as [|bump_type rest];
    [intros H; now elim (Hno 1%Z [BumpRequiresType; Usage])|].
  unfold run_command. rewrite bump_run.
  destruct (outcome get_current_version w) as [[ov ob]|e];
    [|intros H; now elim (Hno 1%Z [CaughtError e])].
  destruct (outcome (bump_version bump_type) w) as [[nv nb]|e] eqn:Hb;
    [|intros H; now elim (Hno 1%Z [CaughtError e])].
  intros _. exists script, bump_type, rest, (nv, nb).
  split; [reflexivity|].
  split; [exact (bump_version_ok_recognized _ _ _ Hb)|].
  split; [discriminate|exact Hb].
Qed.

Lemma main_writes_only_on_bump_witness :
  exists script bump_type rest new_pair,
    ["manage_version.py"; "bump"; "patch"]
      = script :: "bump" :: bump_type :: rest /\
    recognized bump_type = true /\
    cargo_toml (sample_tree "0.2.6" "0007" sample_manifest sample_doc)
      <> None /\
    outcome (bump_version bump_type)
      (sample_tree "0.2.6" "0007" sample_manifest sample_doc) = Ok new_pair.
Proof.
  apply (main_writes_only_on_bump ["manage_version.py"; "bump"; "patch"]
           (sample_tree "0.2.6" "0007" sample_manifest sample_doc)).
  left. reflexivity.
Defined.

Lemma forallb_script_map (log : list event) :
  forallb is_script (map Script log) = true.
Proof. induction log; [reflexivity|assumption]. Qed.

Lemma forallb_script_said (log : list event) (line : main_message) :
  forallb is_script (map Script log ++ [Said line]) = false.
Proof.
  rewrite forallb_app. cbn. apply andb_false_r.
Qed.

(** X6. [main] ends with status 0 or 1. The status is 0 exactly when [main]
    printed no line of its own (no usage text, no error line), and exactly
    when the manifest is there and the command is show with a stored pair
    that is found, or bump with a type for which [bump] returns. *)
Theorem main_exit_status (argv : list string) (w : project) :
  (exit_status (main argv w) = 0 \/ exit_status (main argv w) = 1)%Z /\
  (exit_status (main argv w) = 0%Z
   <-> forallb is_script (output (main argv w)) = true) /\
  (exit_status (main argv w) = 0%Z
   <-> cargo_toml w <> None /\
       ((exists script rest pair,
           argv = script :: "show" :: rest /\
           outcome get_current_version w = Ok pair) \/
        (exists script bump_type rest,
           argv = script :: "bump" :: bump_type :: rest /\
           outcome (bump bump_type) w = Ok tt))).
Proof.
  destruct argv as [|script [|command args]].
  1,2: cbn; repeat split; try (now right); try discriminate;
       intros (_ & [(s & r & p & H & _)|(s & t & r & H & _)]);
       discriminate H.
  cbn [main]. destruct (cargo_toml w) as [manifest|] eqn:Hm.
  2:{ cbn. repeat split; try (now right); try discriminate.
      intros (H & _). now elim H. }
  destruct (String.eqb_spec command "show") as [->|Hshow].
  { unfold run_command. rewrite show_run.
    destruct (outcome get_current_version w) as [[v b]|e] eqn:Hg.
    - cbn. repeat split; try (now left); try discriminate.
      left. now exists script, args, (v, b).
    - cbn. repeat split; try (now right); try discriminate.
      intros (_ & [(s & r & p & _ & H)|(s & t & r & H & _)]);
        discriminate H. }
  destruct (String.eqb_spec command "bump") as [->|Hbump].
  2:{ cbn. repeat split; try (now right); try discriminate.
      intros (_ & [(s & r & p & H & _)|(s & t & r & H & _)]);
        injection H as _ H; now subst. }
  destruct args as [|bump_type rest].
  { cbn. repeat split; try (now right); try discriminate.
    intros (_ & [(s & r & p & H & _)|(s & t & r & H & _)]);
      discriminate H. }
  unfold run_command. rewrite (run_eta (bump bump_type) w).
  destruct (outcome (bump bump_type) w) as [[]|e] eqn:Ho.
  - unfold exit_status, output. cbn [fst snd].
    rewrite forallb_script_map.
    repeat split; try (now left); try discriminate.
    right. now exists script, bump_type, rest.
  - unfold exit_status, output. cbn [fst snd].
    rewrite forallb_script_said.
    repeat split; try (now right); try discriminate.
    intros (_ & [(s & r & p & H & _)|(s & t & r & H & Hok)]);
      [discriminate H|].
    injection H as _ <- _. rewrite Ho in Hok. discriminate Hok.
Qed.

Lemma main_exit_status_witness :
  exit_status (main ["manage_version.py"; "show"]
                 (sample_tree "0.2.6" "0007" sample_manifest sample_doc))
  = 0%Z.
Proof.
  apply (proj2 (proj2 (main_exit_status ["manage_version.py"; "show"]
                  (sample_tree "0.2.6" "0007" sample_manifest sample_doc)))).
  split; [discriminate|].
  left. exists "manage_version.py", [], ("0.2.6", "0007"). now split.
Defined.

(** ** Updating the manifest twice *)

Lemma split_unlines (lines : list string) :
  lines <> [] ->
  Forall (fun l => no_newline l = true) lines ->
  lines_of (unlines lines) = lines.
Proof.
  intros Hne H. induction H as [|l lines Hl _ IH]; [now elim Hne|].
  destruct lines as [|l2 lines].
  - cbn [unlines Py.join]. unfold lines_of. now apply split_none.
  - change (unlines (l :: l2 :: lines))
      with (l ++ String nl (unlines (l2 :: lines)))%string.
    unfold lines_of in *. rewrite (split_app nl l _ Hl).
    f_equal. apply IH. discriminate.
Qed.

Lemma rewrite_line_cases (version line : string) :
  rewrite_line version line = line \/
  exists old rest,
    old <> EmptyString /\ quote_free old = true /\
    line = (declaration ++ old ++ String dq rest)%string /\
    rewrite_line version line
    = (declaration ++ version ++ String dq rest)%string.
Proof.
  unfold rewrite_line.
  destruct (strip_prefix declaration line) as [r|] eqn:Hs; [|now left].
  destruct (Py.span (Re.cls_not dq) r) as [x r'] eqn:Hx.
  destruct x as [|c x]; [now left|].
  destruct r' as [|q rest]; [now left|].
  right. exists (String c x), rest.
  pose proof (span_stop _ _ _ _ _ Hx) as Hq. apply cls_not_false in Hq.
  subst q. destruct (span_app _ _ _ _ Hx) as [Hr Hq].
  apply strip_prefix_eq in Hs. subst r line.
  repeat split; [discriminate|exact Hq].
Qed.

Lemma rewrite_line_again (version line : string) :
  version <> EmptyString -> quote_free version = true ->
  rewrite_line version (rewrite_line version line)
  = rewrite_line version line.
Proof.
  intros Hne Hq.
  destruct (rewrite_line_cases version line)
    as [H|(old & rest & _ & _ & _ & H)]; rewrite H; [exact H|].
  now apply rewrite_line_declaration.
Qed.

Lemma rewrite_line_terminated (version line : string) :
  unterminated line = false ->
  unterminated (rewrite_line version line) = false.
Proof.
  intros Hu.
  destruct (rewrite_line_cases version line)
    as [H|(old & rest & _ & _ & _ & H)]; rewrite H; [exact Hu|].
  unfold unterminated. rewrite strip_prefix_self, all_chars_app.
  cbn. apply andb_false_r.
Qed.

Lemma rewrite_line_no_newline (version line : string) :
  no_newline version = true -> no_newline line = true ->
  no_newline (rewrite_line version line) = true.
Proof.
  intros Hv Hl.
  destruct (rewrite_line_cases version line)
    as [H|(old & rest & _ & _ & El & H)]; rewrite H; [exact Hl|].
  subst line. rewrite !no_newline_app in Hl |- *.
  apply andb_true_iff in Hl as [Hd Hl].
  apply andb_true_iff in Hl as [_ Hr].
  now rewrite Hd, Hv, Hr.
Qed.

(** X7. Updating the manifest is idempotent: on a manifest whose declaration
    lines close their quote, with a version that is not empty and holds no
    double quote, backslash or line feed, a second [update_cargo_toml] with
    the same version returns and writes back exactly the content the first
    one wrote. *)
Theorem update_cargo_toml_idempotent (version content : string)
    (w : project) :
  cargo_toml w = Some content ->
  version <> EmptyString ->
  quote_free version = true ->
  no_backslash version = true ->
  no_newline version = true ->
  forallb (fun l => negb (unterminated l)) (lines_of content) = true ->
  exists content',
    update_cargo_toml version w
    = (Ok tt, store CargoToml content' w,
       [Wrote CargoToml content'; Printed (MsgUpdated CargoToml)]) /\
    update_cargo_toml version (store CargoToml content' w)
    = (Ok tt, store CargoToml content' w,
       [Wrote CargoToml content'; Printed (MsgUpdated CargoToml)]).
Proof.
  intros Hf Hne Hq Hb Hn Hu.
  set (lines := lines_of content).
  assert (Hlines : Forall (fun l => no_newline l = true) lines)
    by apply split_no_sep.
  assert (Hc : Re.sub_from cargo_re
                 (literal_pieces ("version = " ++ quoted version))
                 true 0 content
               = unlines (map (rewrite_line version) lines)).
  { rewrite <- (join_split nl content) at 1.
    now apply sub_from_lines. }
  exists (unlines (map (rewrite_line version) lines)).
  split.
  - now rewrite (update_cargo_toml_run version content w Hf Hb), Hc.
  - rewrite (update_cargo_toml_run version _ (store CargoToml _ w)
               eq_refl Hb).
    assert (Hne' : map (rewrite_line version) lines <> []).
    { unfold lines, lines_of. pose proof (split_nonempty nl content).
      destruct (Py.split nl content); [contradiction|discriminate]. }
    assert (Hl' : Forall (fun l => no_newline l = true)
                    (map (rewrite_line version) lines)).
    { apply Forall_map. eapply Forall_impl; [|exact Hlines].
      intros l. now apply rewrite_line_no_newline. }
    assert (Hagain : Re.sub_from cargo_re
                 (literal_pieces ("version = " ++ quoted version))
                 true 0 (unlines (map (rewrite_line version) lines))
               = unlines (map (rewrite_line version) lines)).
    { rewrite sub_from_lines; [|exact Hl'|].
      - f_equal. rewrite map_map. apply map_ext.
        intros l. now apply rewrite_line_again.
      - rewrite forallb_forall in Hu |- *. intros l' Hin.
        apply in_map_iff in Hin as (l & <- & Hin).
        apply negb_true_iff, rewrite_line_terminated.
        apply negb_true_iff. now apply Hu. }
    rewrite Hagain. reflexivity.
Qed.

Lemma update_cargo_toml_idempotent_witness :
  exists content',
    update_cargo_toml "0.3.0"
      (sample_tree "0.2.6" "0007" sample_manifest sample_doc)
    = (Ok tt,
       store CargoToml content'
         (sample_tree "0.2.6" "0007" sample_manifest sample_doc),
       [Wrote CargoToml content'; Printed (MsgUpdated CargoToml)]) /\
    update_cargo_toml "0.3.0"
      (store CargoToml content'
         (sample_tree "0.2.6" "0007" sample_manifest sample_doc))
    = (Ok tt,
       store CargoToml content'
         (sample_tree "0.2.6" "0007" sample_manifest sample_doc),
       [Wrote CargoToml content'; Printed (MsgUpdated CargoToml)]).
Proof.
  apply (update_cargo_toml_idempotent "0.3.0" sample_manifest
           (sample_tree "0.2.6" "0007" sample_manifest sample_doc));
    (reflexivity || discriminate).
Defined.

(** ** No rollback *)

Lemma bind_ok_eq {A B : Type} (m : M A) (f : A -> M B) (w w1 w2 : project)
    (a : A) (r : result B) (l1 l2 : list event) :
  m w = (Ok a, w1, l1) -> f a w1 = (r, w2, l2) ->
  bind m f w = (r, w2, l1 ++ l2).
Proof. intros H1 H2. unfold bind. now rewrite H1, H2. Qed.




(** ** Patterns on a quoted value *)

Lemma lit_app (a b : string) : Re.lit (a ++ b) = Re.lit a ++ Re.lit b.
Proof. induction a as [|c a IH]; [reflexivity|]. cbn. now rewrite IH. Qed.

Lemma match_quoted_re (head : string) (bol : bool) (s : string) :
  Re.match_here (quoted_re head) bol None None s
  = match strip_prefix (head ++ String dq "") s with
    | Some r => quoted_match (fun _ => None) r
    | None => None
    end.
Proof.
  unfold quoted_re.
  change (Re.lit head ++ [Re.Chr dq; Re.Plus (Re.cls_not dq); Re.Chr dq])
    with (Re.lit head ++ Re.lit (String dq "")
          ++ [Re.Plus (Re.cls_not dq); Re.Chr dq]).
  rewrite app_assoc, <- lit_app, match_lit.
  destruct (strip_prefix (head ++ String dq "") s) as [r|]; [|reflexivity].
  rewrite match_quoted. unfold quoted_match.
  now destruct (Py.span (Re.cls_not dq) r) as [[|c x] [|q rest]].
Qed.

Lemma take_app (a b : string) : Re.take (String.length a) (a ++ b) = a.
Proof. induction a as [|c a IH]; [now destruct b|]. cbn. now rewrite IH. Qed.

Lemma greedy_group (opened : string)
    (k : bool -> string -> option (string * option string)) :
  (forall b c t,
     k b (String c t)
     = if Ascii.eqb c dq
       then Some (t, Some (Re.take (Re.consumed opened (String c t)) opened))
       else None) ->
  (forall b, k b EmptyString = None) ->
  forall s bol,
    Re.greedy (Re.cls_not dq) k bol s
    = match snd (Py.span (Re.cls_not dq) s) with
      | String q rest =>
          Some (rest,
                Some (Re.take (Re.consumed opened (String q rest)) opened))
      | EmptyString => None
      end.
Proof.
  intros Hk Hk0. induction s as [|c s IH]; intros bol; [apply Hk0|].
  cbn [Re.greedy Py.span].
  destruct (Re.cls_not dq c) eqn:Hc.
  - rewrite IH. destruct (Py.span (Re.cls_not dq) s) as [x r']. cbn [snd].
    destruct r' as [|q rest]; [|reflexivity].
    rewrite Hk. unfold Re.cls_not in Hc.
    apply negb_true_iff in Hc. now rewrite Hc.
  - cbn [snd]. rewrite Hk. apply cls_not_false in Hc as ->.
    now rewrite Ascii.eqb_refl.
Qed.

Lemma match_group_tail (bol : bool) (r : string) :
  Re.match_here
    [Re.Open; Re.Plus (Re.cls_not dq); Re.Close; Re.Chr dq] bol None None r
  = quoted_match Some r.
Proof.
  unfold quoted_match.
  change (Re.match_here
            [Re.Open; Re.Plus (Re.cls_not dq); Re.Close; Re.Chr dq]
            bol None None r)
    with (Re.match_here [Re.Plus (Re.cls_not dq); Re.Close; Re.Chr dq]
            bol (Some r) None r).
  destruct r as [|c r0]; [reflexivity|].
  change (Re.match_here [Re.Plus (Re.cls_not dq); Re.Close; Re.Chr dq]
            bol (Some (String c r0)) None (String c r0))
    with (if Re.cls_not dq c
          then Re.greedy (Re.cls_not dq)
                 (fun b t =>
                    Re.match_here [Re.Close; Re.Chr dq] b
                      (Some (String c r0)) None t)
                 (Ascii.eqb c nl) r0
          else None).
  cbn [Py.span]. destruct (Re.cls_not dq c); [|reflexivity].
  rewrite (greedy_group (String c r0)); [| |reflexivity].
  - destruct (Py.span (Re.cls_not dq) r0) as [x r'] eqn:Hx. cbn [snd].
    destruct r' as [|q rest]; [reflexivity|].
    destruct (span_app _ _ _ _ Hx) as [-> _].
    change (String c (x ++ String q rest))
      with (String c x ++ String q rest)%string.
    now rewrite consumed_app, take_app.
  - intros b q t. cbn [Re.match_here option_map].
    now destruct (Ascii.eqb q dq).
Qed.

Lemma match_quoted_group_re (head : string) (bol : bool) (s : string) :
  Re.match_here (quoted_group_re head) bol None None s
  = match strip_prefix (head ++ String dq "") s with
    | Some r => quoted_match Some r
    | None => None
    end.
Proof.
  unfold quoted_group_re.
  change (Re.lit head ++
          [Re.Chr dq; Re.Open; Re.Plus (Re.cls_not dq); Re.Close; Re.Chr dq])
    with (Re.lit head ++ Re.lit (String dq "")
          ++ [Re.Open; Re.Plus (Re.cls_not dq); Re.Close; Re.Chr dq]).
  rewrite app_assoc, <- lit_app, match_lit.
  destruct (strip_prefix (head ++ String dq "") s) as [r|]; [|reflexivity].
  apply match_group_tail.
Qed.

(** ** Scanning a text chunk by chunk, from quote to quote *)

Lemma strip_prefix_first_quote (head m t : string) :
  quote_free head = true -> quote_free m = true ->
  strip_prefix (head ++ String dq "") (m ++ String dq t)
  = if String.eqb m head then Some t else None.
Proof.
  unfold quote_free. revert m.
  induction head as [|p head IH]; intros m Hh Hm.
  - destruct m as [|c m]; cbn [append strip_prefix String.eqb].
    + now rewrite Ascii.eqb_refl.
    + cbn [all_chars] in Hm. apply andb_true_iff in Hm as [Hc _].
      unfold Re.cls_not in Hc. apply negb_true_iff in Hc. now rewrite Hc.
  - cbn [all_chars] in Hh. apply andb_true_iff in Hh as [Hp Hh].
    destruct m as [|c m]; cbn [append strip_prefix String.eqb].
    + unfold Re.cls_not in Hp. apply negb_true_iff in Hp.
      rewrite Ascii.eqb_sym. now rewrite Hp.
    + cbn [all_chars] in Hm. apply andb_true_iff in Hm as [_ Hm].
      destruct (Ascii.eqb c p); [now apply IH|reflexivity].
Qed.

Lemma strip_prefix_quote_free (head s : string) :
  quote_free s = true -> strip_prefix (head ++ String dq "") s = None.
Proof.
  intros Hs.
  destruct (strip_prefix (head ++ String dq "") s) as [r|] eqn:E;
    [|reflexivity].
  apply strip_prefix_eq in E. subst s. unfold quote_free in Hs.
  rewrite !all_chars_app in Hs. cbn in Hs.
  now rewrite andb_false_r in Hs.
Qed.

Lemma eqb_longer (u head : string) (c : ascii) :
  String.eqb (String c u ++ head) head = false.
Proof.
  apply String.eqb_neq. intros H.
  apply (f_equal String.length) in H.
  rewrite append_length in H. cbn in H. lia.
Qed.

Lemma ends_with_tail (head u : string) (c : ascii) :
  ends_with head (String c u) = false ->
  String.eqb (String c u) head = false /\ ends_with head u = false.
Proof. cbn [ends_with]. now intros [H1 H2]%orb_false_iff. Qed.

Lemma ends_with_empty (head : string) :
  ends_with head EmptyString = false -> String.eqb EmptyString head = false.
Proof. cbn [ends_with]. now rewrite orb_false_r. Qed.

Lemma bol_after_app (bol : bool) (u : string) (c : ascii) :
  bol_after bol (u ++ String c "") = Ascii.eqb c nl.
Proof. revert bol. induction u as [|x u IH]; intros bol; [reflexivity|apply IH]. Qed.

Lemma sub_from_skip_any (p : Re.pattern) (t : list Re.piece) (u s : string) :
  forall bol,
    Re.sub_from p t bol (String.length u) (u ++ s)
    = Re.sub_from p t (bol_after bol u) 0 s.
Proof.
  induction u as [|c u IH]; intros bol; [reflexivity|].
  cbn [String.length append Re.sub_from bol_after]. apply IH.
Qed.

Section Chunks.

Variable p : Re.pattern.
Variable head : string.
Variable found : string -> option string.

Hypothesis head_quote_free : quote_free head = true.
Hypothesis match_p :
  forall bol s,
    Re.match_here p bol None None s
    = match strip_prefix (head ++ String dq "") s with
      | Some r => quoted_match found r
      | None => None
      end.

Variable t : list Re.piece.
Variable repl : string.
Hypothesis expand_t : forall m g, Re.expand t m g = repl.

Lemma match_chunk (bol : bool) (m rest : string) :
  quote_free m = true ->
  Re.match_here p bol None None (m ++ String dq rest)
  = if String.eqb m head then quoted_match found rest else None.
Proof.
  intros Hm. rewrite match_p, (strip_prefix_first_quote _ _ _
                                 head_quote_free Hm).
  now destruct (String.eqb m head).
Qed.

(** A chunk that does not end with the head holds no match start, nor does
    the quote after it. *)
Lemma search_from_skip (u rest : string) :
  quote_free u = true -> ends_with head u = false ->
  forall bol,
    Re.search_from p bol (u ++ String dq rest)
    = Re.search_from p false rest.
Proof.
  intros Hu He. induction u as [|c u IH]; intros bol.
  - cbn [append Re.search_from].
    pose proof (match_chunk bol "" rest eq_refl) as E.
    cbn [append] in E. rewrite E, (ends_with_empty _ He). reflexivity.
  - destruct (ends_with_tail _ _ _ He) as [Hne He'].
    unfold quote_free in Hu. cbn [all_chars] in Hu.
    apply andb_true_iff in Hu as [Hc Hu'].
    assert (Hq : quote_free (String c u) = true)
      by (unfold quote_free; cbn [all_chars]; now rewrite Hc, Hu').
    change (String c u ++ String dq rest)%string
      with (String c (u ++ String dq rest)).
    cbn [Re.search_from].
    change (String c (u ++ String dq rest))
      with (String c u ++ String dq rest)%string.
    rewrite (match_chunk bol _ rest Hq), Hne. now apply IH.
Qed.

Lemma sub_from_skip_chunk (u rest : string) :
  quote_free u = true -> ends_with head u = false ->
  forall bol,
    Re.sub_from p t bol 0 (u ++ String dq rest)
    = (u ++ String dq (Re.sub_from p t false 0 rest))%string.
Proof.
  intros Hu He. induction u as [|c u IH]; intros bol.
  - cbn [append Re.sub_from].
    pose proof (match_chunk bol "" rest eq_refl) as E.
    cbn [append] in E. rewrite E, (ends_with_empty _ He). reflexivity.
  - destruct (ends_with_tail _ _ _ He) as [Hne He'].
    unfold quote_free in Hu. cbn [all_chars] in Hu.
    apply andb_true_iff in Hu as [Hc Hu'].
    assert (Hq : quote_free (String c u) = true)
      by (unfold quote_free; cbn [all_chars]; now rewrite Hc, Hu').
    change (String c u ++ String dq rest)%string
      with (String c (u ++ String dq rest)).
    cbn [Re.sub_from].
    change (String c (u ++ String dq rest))
      with (String c u ++ String dq rest)%string.
    rewrite (match_chunk bol _ rest Hq), Hne.
    cbn [append]. now rewrite IH.
Qed.

(** Text without a quote holds no match. *)
Lemma search_from_quote_free (s : string) :
  quote_free s = true -> forall bol, Re.search_from p bol s = None.
Proof.
  induction s as [|c s IH]; intros Hs bol; cbn [Re.search_from];
    rewrite match_p, (strip_prefix_quote_free _ _ Hs); [reflexivity|].
  unfold quote_free in Hs. cbn [all_chars] in Hs.
  apply andb_true_iff in Hs as [_ Hs]. now apply IH.
Qed.

(** Nor does a value followed by its closing quote and text without a
    quote. *)
Lemma search_from_last_value (x rest : string) :
  quote_free x = true -> quote_free rest = true ->
  forall bol, Re.search_from p bol (x ++ String dq rest) = None.
Proof.
  intros Hx Hr.
  assert (Hfail : quoted_match found rest = None).
  { unfold quoted_match. rewrite (span_all _ _ Hr). now destruct rest. }
  induction x as [|c x IH]; intros bol.
  - cbn [append Re.search_from].
    pose proof (match_chunk bol "" rest eq_refl) as E.
    cbn [append] in E. rewrite E, Hfail.
    destruct (String.eqb "" head); now apply search_from_quote_free.
  - unfold quote_free in Hx. cbn [all_chars] in Hx.
    apply andb_true_iff in Hx as [Hc Hx'].
    assert (Hq : quote_free (String c x) = true)
      by (unfold quote_free; cbn [all_chars]; now rewrite Hc, Hx').
    change (String c x ++ String dq rest)%string
      with (String c (x ++ String dq rest)).
    cbn [Re.search_from].
    change (String c (x ++ String dq rest))
      with (String c x ++ String dq rest)%string.
    rewrite (match_chunk bol _ rest Hq), Hfail.
    destruct (String.eqb (String c x) head); now apply IH.
Qed.

(** The first declaration after text without a quote is where the leftmost
    match is. *)
Lemma search_from_hit (u x rest : string) :
  quote_free u = true -> x <> EmptyString -> quote_free x = true ->
  forall bol,
    Re.search_from p bol
      (u ++ head ++ String dq (x ++ String dq rest))
    = Some (rest, found x).
Proof.
  intros Hu Hne Hx.
  assert (Hhit : quoted_match found (x ++ String dq rest)
                 = Some (rest, found x)).
  { unfold quoted_match. rewrite (span_quote _ _ Hx).
    destruct x; [now elim Hne|reflexivity]. }
  induction u as [|c u IH]; intros bol.
  - cbn [append].
    assert (E : Re.match_here p bol None None
                  (head ++ String dq (x ++ String dq rest))
                = Some (rest, found x)).
    { rewrite (match_chunk bol head _ head_quote_free).
      now rewrite String.eqb_refl. }
    destruct (head ++ String dq (x ++ String dq rest))%string;
      cbn [Re.search_from]; now rewrite E.
  - unfold quote_free in Hu. cbn [all_chars] in Hu.
    apply andb_true_iff in Hu as [Hc Hu'].
    assert (Hq : quote_free (String c u ++ head) = true).
    { unfold quote_free in *. rewrite all_chars_app. cbn [all_chars].
      now rewrite Hc, Hu', head_quote_free. }
    change (String c u ++ head ++ String dq (x ++ String dq rest))%string
      with (String c (u ++ head ++ String dq (x ++ String dq rest))).
    cbn [Re.search_from].
    change (String c (u ++ head ++ String dq (x ++ String dq rest)))
      with (String c u ++ head ++ String dq (x ++ String dq rest))%string.
    pose proof (match_chunk bol _ (x ++ String dq rest) Hq) as E.
    rewrite append_assoc, eqb_longer in E. rewrite E. now apply IH.
Qed.

Lemma sub_from_hit (u x rest : string) :
  quote_free u = true -> x <> EmptyString -> quote_free x = true ->
  forall bol,
    Re.sub_from p t bol 0
      (u ++ head ++ String dq (x ++ String dq rest))
    = (u ++ repl ++ Re.sub_from p t false 0 rest)%string.
Proof.
  intros Hu Hne Hx.
  assert (Hhit : quoted_match found (x ++ String dq rest)
                 = Some (rest, found x)).
  { unfold quoted_match. rewrite (span_quote _ _ Hx).
    destruct x; [now elim Hne|reflexivity]. }
  induction u as [|c u IH]; intros bol.
  - cbn [append].
    assert (E : Re.match_here p bol None None
                  (head ++ String dq (x ++ String dq rest))
                = Some (rest, found x)).
    { rewrite (match_chunk bol head _ head_quote_free).
      now rewrite String.eqb_refl. }
    assert (Hs : (head ++ String dq (x ++ String dq rest)
                  = (head ++ String dq x ++ String dq "") ++ rest)%string).
    { rewrite !append_assoc. reflexivity. }
    rewrite Hs in E |- *.
    destruct (head ++ String dq x ++ String dq "")%string as [|c m] eqn:Em.
    { destruct head; discriminate Em. }
    change ((String c m ++ rest)%string) with (String c (m ++ rest)) in *.
    cbn [Re.sub_from]. rewrite E.
    change (String c (m ++ rest)) with (String c m ++ rest)%string.
    rewrite consumed_app, expand_t. cbn [String.length Nat.eqb].
    replace (S (String.length m) - 1) with (String.length m) by lia.
    rewrite sub_from_skip_any.
    change (bol_after (Ascii.eqb c nl) m) with (bol_after bol (String c m)).
    rewrite <- Em, <- append_assoc.
    change (String dq x ++ String dq "")%string
      with (String dq (x ++ String dq "")).
    replace ((head ++ String dq (x ++ String dq "")))%string
      with ((head ++ String dq x) ++ String dq "")%string
      by (rewrite !append_assoc; reflexivity).
    rewrite bol_after_app. reflexivity.
  - unfold quote_free in Hu. cbn [all_chars] in Hu.
    apply andb_true_iff in Hu as [Hc Hu'].
    assert (Hq : quote_free (String c u ++ head) = true).
    { unfold quote_free in *. rewrite all_chars_app. cbn [all_chars].
      now rewrite Hc, Hu', head_quote_free. }
    change (String c u ++ head ++ String dq (x ++ String dq rest))%string
      with (String c (u ++ head ++ String dq (x ++ String dq rest))).
    cbn [Re.sub_from].
    change (String c (u ++ head ++ String dq (x ++ String dq rest)))
      with (String c u ++ head ++ String dq (x ++ String dq rest))%string.
    pose proof (match_chunk bol _ (x ++ String dq rest) Hq) as E.
    rewrite append_assoc, eqb_longer in E. rewrite E.
    cbn [append]. now rewrite IH.
Qed.

End Chunks.

(** ** The constants file written and read back *)

Lemma ends_with_spec (l s : string) :
  ends_with l s = true -> exists u, s = (u ++ l)%string.
Proof.
  induction s as [|c s IH]; cbn [ends_with].
  - rewrite orb_false_r. intros H%String.eqb_eq. now exists ""%string.
  - intros [H%String.eqb_eq|H]%orb_true_iff; [now exists ""%string|].
    destruct (IH H) as [u ->]. now exists (String c u).
Qed.

Lemma app_tail_inj (a b s t : string) :
  (a ++ s)%string = (b ++ t)%string ->
  String.length s = String.length t -> s = t.
Proof.
  revert b. induction a as [|x a IH]; intros [|y b] H Hl; cbn [append] in H.
  - exact H.
  - apply (f_equal String.length) in H. cbn [String.length] in H.
    rewrite append_length in H. lia.
  - apply (f_equal String.length) in H. cbn [String.length] in H.
    rewrite append_length in H. lia.
  - injection H as _ H. now apply (IH b).
Qed.

Lemma version_head_not_at_build (mid : string) :
  ends_with version_head (mid ++ build_head) = false.
Proof.
  destruct (ends_with version_head (mid ++ build_head)) eqn:E;
    [|reflexivity].
  apply ends_with_spec in E as [u Hu].
  change build_head with ("pub const BUIL" ++ "D: &str = ")%string in Hu.
  change version_head with ("pub const VERSIO" ++ "N: &str = ")%string in Hu.
  rewrite <- !append_assoc in Hu.
  apply app_tail_inj in Hu; [discriminate Hu|reflexivity].
Qed.

Lemma build_head_not_at_version (pre : string) :
  ends_with build_head (pre ++ version_head) = false.
Proof.
  destruct (ends_with build_head (pre ++ version_head)) eqn:E;
    [|reflexivity].
  apply ends_with_spec in E as [u Hu].
  change build_head with ("pub const BUIL" ++ "D: &str = ")%string in Hu.
  change version_head with ("pub const VERSIO" ++ "N: &str = ")%string in Hu.
  rewrite <- !append_assoc in Hu.
  apply app_tail_inj in Hu; [discriminate Hu|reflexivity].
Qed.

Lemma build_head_not_in_value (value : string) :
  all_chars version_char value = true ->
  ends_with build_head value = false.
Proof.
  intros Hv. destruct (ends_with build_head value) eqn:E; [|reflexivity].
  apply ends_with_spec in E as [u ->].
  rewrite all_chars_app in Hv. apply andb_true_iff in Hv as [_ Hv].
  discriminate Hv.
Qed.

Lemma version_chars_quote_free (value : string) :
  all_chars version_char value = true -> quote_free value = true.
Proof.
  apply all_chars_weaken. intros c Hc. unfold Re.cls_not.
  apply negb_true_iff.
  destruct (Ascii.eqb_spec c dq) as [->|]; [discriminate Hc|reflexivity].
Qed.

Lemma plain_value_facts (value : string) :
  plain_value value = true ->
  value <> EmptyString /\ all_chars version_char value = true /\
  quote_free value = true /\ no_backslash value = true.
Proof.
  unfold plain_value. intros [Hne Hv]%andb_true_iff.
  split; [|split; [exact Hv|split]].
  - intros ->. discriminate Hne.
  - now apply version_chars_quote_free.
  - eapply all_chars_weaken; [|exact Hv].
    apply version_char_no_backslash.
Qed.

Lemma constants_file_shape (pre version mid build post : string) :
  constants_file pre version mid build post
  = (pre ++ version_head
       ++ String dq (version
            ++ String dq (mid ++ build_head
                 ++ String dq (build ++ String dq post))))%string.
Proof.
  unfold constants_file, version_declaration, build_declaration, quoted.
  fold version_head. fold build_head.
  rewrite ?append_assoc. cbn [append]. rewrite ?append_assoc.
  cbn [append]. reflexivity.
Qed.

Section ConstantsFile.

Variables pre mid post : string.
Hypothesis pre_quote_free : quote_free pre = true.
Hypothesis mid_quote_free : quote_free mid = true.
Hypothesis post_quote_free : quote_free post = true.

(** The VERSION pattern on the file: the declaration is replaced, the rest
    kept. *)
Lemma sub_version (old build version : string) :
  old <> EmptyString -> quote_free old = true ->
  quote_free build = true ->
  Re.sub_from version_re (literal_pieces (version_declaration version))
    true 0 (constants_file pre old mid build post)
  = constants_file pre version mid build post.
Proof.
  intros Hne Hold Hbuild. rewrite !constants_file_shape.
  rewrite (sub_from_hit version_re version_head (fun _ => None) eq_refl
             (match_quoted_re version_head)
             (literal_pieces (version_declaration version))
             (version_declaration version) (expand_literal _)
             pre old _ pre_quote_free Hne Hold).
  rewrite sub_from_no_match.
  - unfold version_declaration, quoted. fold version_head.
    rewrite ?append_assoc. cbn [append]. rewrite ?append_assoc.
    reflexivity.
  - rewrite <- append_assoc.
    rewrite (search_from_skip version_re version_head (fun _ => None)
               eq_refl (match_quoted_re version_head)).
    + apply (search_from_last_value version_re version_head
               (fun _ => None) eq_refl (match_quoted_re version_head));
        assumption.
    + unfold quote_free in *. rewrite all_chars_app, mid_quote_free.
      reflexivity.
    + apply version_head_not_at_build.
Qed.

(** The BUILD pattern on the file, for a version made of version
    characters. *)
Lemma sub_build (version old build : string) :
  all_chars version_char version = true ->
  old <> EmptyString -> quote_free old = true ->
  Re.sub_from build_re (literal_pieces (build_declaration build))
    true 0 (constants_file pre version mid old post)
  = constants_file pre version mid build post.
Proof.
  intros Hv Hne Hold. rewrite !constants_file_shape.
  rewrite <- append_assoc.
  rewrite (sub_from_skip_chunk build_re build_head (fun _ => None)
             eq_refl (match_quoted_re build_head)).
  2:{ unfold quote_free in *. rewrite all_chars_app, pre_quote_free.
      reflexivity. }
  2:{ apply build_head_not_at_version. }
  rewrite (sub_from_skip_chunk build_re build_head (fun _ => None)
             eq_refl (match_quoted_re build_head)).
  2:{ now apply version_chars_quote_free. }
  2:{ now apply build_head_not_in_value. }
  rewrite (sub_from_hit build_re build_head (fun _ => None) eq_refl
             (match_quoted_re build_head)
             (literal_pieces (build_declaration build))
             (build_declaration build) (expand_literal _)
             mid old _ mid_quote_free Hne Hold).
  rewrite sub_from_no_match.
  - unfold build_declaration, quoted. fold build_head.
    rewrite ?append_assoc. cbn [append]. rewrite ?append_assoc.
    reflexivity.
  - now apply (search_from_quote_free build_re build_head (fun _ => None)
                 (match_quoted_re build_head)).
Qed.

(** Reading the pair off the file. *)
Lemma search_version (version build : string) :
  version <> EmptyString -> quote_free version = true ->
  Re.search version_group_re (constants_file pre version mid build post)
  = Some ((mid ++ build_head ++ String dq (build ++ String dq post))%string,
          Some version).
Proof.
  intros Hne Hq. rewrite constants_file_shape. unfold Re.search.
  exact (search_from_hit version_group_re version_head Some eq_refl
           (match_quoted_group_re version_head)
           pre version _ pre_quote_free Hne Hq true).
Qed.

Lemma search_build (version build : string) :
  all_chars version_char version = true ->
  build <> EmptyString -> quote_free build = true ->
  Re.search build_group_re (constants_file pre version mid build post)
  = Some (post, Some build).
Proof.
  intros Hv Hne Hq. rewrite constants_file_shape. unfold Re.search.
  rewrite <- append_assoc.
  rewrite (search_from_skip build_group_re build_head Some
             eq_refl (match_quoted_group_re build_head)).
  2:{ unfold quote_free in *. rewrite all_chars_app, pre_quote_free.
      reflexivity. }
  2:{ apply build_head_not_at_version. }
  rewrite (search_from_skip build_group_re build_head Some
             eq_refl (match_quoted_group_re build_head)).
  2:{ now apply version_chars_quote_free. }
  2:{ now apply build_head_not_in_value. }
  exact (search_from_hit build_group_re build_head Some eq_refl
           (match_quoted_group_re build_head)
           mid build _ mid_quote_free Hne Hq false).
Qed.

Lemma get_current_version_reads (version build : string) (w : project) :
  version_rs w = Some (constants_file pre version mid build post) ->
  version <> EmptyString -> all_chars version_char version = true ->
  build <> EmptyString -> quote_free build = true ->
  outcome get_current_version w = Ok (version, build).
Proof.
  intros Hf Hv Hvc Hb Hbq.
  unfold outcome, get_current_version, bind, read_text. cbn [content_of].
  rewrite Hf, (search_version version build Hv
                 (version_chars_quote_free _ Hvc)),
    (search_build version build Hvc Hb Hbq).
  reflexivity.
Qed.

End ConstantsFile.

Lemma update_version_rs_shaped (pre mid post : string)
    (old_version old_build version build : string) (w : project) :
  quote_free pre = true -> quote_free mid = true ->
  quote_free post = true ->
  old_version <> EmptyString -> quote_free old_version = true ->
  old_build <> EmptyString -> quote_free old_build = true ->
  all_chars version_char version = true ->
  no_backslash build = true ->
  version_rs w = Some (constants_file pre old_version mid old_build post) ->
  update_version_rs version build w
  = (Ok tt,
     store VersionRs (constants_file pre version mid build post) w,
     [Wrote VersionRs (constants_file pre version mid build post);
      Printed (MsgUpdated VersionRs)]).
Proof.
  intros Hpre Hmid Hpost Hov Hovq Hob Hobq Hv Hb Hf.
  assert (Hvb : no_backslash version = true).
  { eapply all_chars_weaken; [|exact Hv]. apply version_char_no_backslash. }
  assert (H1 : no_backslash (version_declaration version) = true).
  { unfold version_declaration.
    rewrite no_backslash_app, no_backslash_quoted by exact Hvb.
    reflexivity. }
  assert (H2 : no_backslash (build_declaration build) = true).
  { unfold build_declaration.
    rewrite no_backslash_app, no_backslash_quoted by exact Hb.
    reflexivity. }
  unfold update_version_rs, bind, read_text, lift, write_text, print.
  cbn [content_of]. rewrite Hf.
  change ("pub const VERSION: &str = " ++ quoted version)%string
    with (version_declaration version).
  change ("pub const BUILD: &str = " ++ quoted build)%string
    with (build_declaration build).
  rewrite (sub_literal _ _ _ H1).
  rewrite (sub_version pre mid post Hpre Hmid Hpost old_version old_build
             version Hov Hovq Hobq).
  rewrite (sub_literal _ _ _ H2).
  rewrite (sub_build pre mid post Hpre Hmid Hpost version old_build build
             Hv Hob Hobq).
  reflexivity.
Qed.

(** X9. Write, then read. On a constants file made of the two declarations
    in a text that holds no other double quote, with stored values that are
    not empty, [update_version_rs] with a version and a build that are not
    empty, made of version characters (digits, dots, signs, white space,
    underscores) and without carriage return replaces the two values and
    nothing else, and [get_current_version] then returns exactly the pair
    that was written. *)
Theorem update_version_rs_round_trip (pre mid post : string)
    (old_version old_build version build : string) (w : project) :
  quote_free pre = true -> quote_free mid = true ->
  quote_free post = true ->
  old_version <> EmptyString -> quote_free old_version = true ->
  old_build <> EmptyString -> quote_free old_build = true ->
  plain_value version = true -> plain_value build = true ->
  no_carriage_return version = true -> no_carriage_return build = true ->
  version_rs w = Some (constants_file pre old_version mid old_build post) ->
  update_version_rs version build w
  = (Ok tt,
     store VersionRs (constants_file pre version mid build post) w,
     [Wrote VersionRs (constants_file pre version mid build post);
      Printed (MsgUpdated VersionRs)]) /\
  outcome get_current_version
    (store VersionRs (constants_file pre version mid build post) w)
  = Ok (version, build).
Proof.
  intros Hpre Hmid Hpost Hov Hovq Hob Hobq Hv Hb _ _ Hf.
  destruct (plain_value_facts _ Hv) as (Hvne & Hvc & Hvq & Hvb).
  destruct (plain_value_facts _ Hb) as (Hbne & Hbc & Hbq & Hbb).
  split.
  - now apply (update_version_rs_shaped pre mid post old_version old_build).
  - now apply (get_current_version_reads pre mid post Hpre Hmid).
Qed.

Lemma update_version_rs_round_trip_witness :
  update_version_rs "0.3.0" "0001"
    (mkProject (Some (constants_file "// constants" "0.2.6" ";" "0007" ";"))
       None None)
  = (Ok tt,
     store VersionRs (constants_file "// constants" "0.3.0" ";" "0001" ";")
       (mkProject
          (Some (constants_file "// constants" "0.2.6" ";" "0007" ";"))
          None None),
     [Wrote VersionRs (constants_file "// constants" "0.3.0" ";" "0001" ";");
      Printed (MsgUpdated VersionRs)]) /\
  outcome get_current_version
    (store VersionRs (constants_file "// constants" "0.3.0" ";" "0001" ";")
       (mkProject
          (Some (constants_file "// constants" "0.2.6" ";" "0007" ";"))
          None None))
  = Ok ("0.3.0", "0001").
Proof.
  apply (update_version_rs_round_trip "// constants" ";" ";"
           "0.2.6" "0007" "0.3.0" "0001");
    (reflexivity || discriminate).
Defined.

(** ** What [get_current_version] returns *)

Lemma quoted_match_value (r rest : string) (g : option string) :
  quoted_match Some r = Some (rest, g) ->
  exists value, g = Some value /\ value <> EmptyString /\
                quote_free value = true.
Proof.
  unfold quoted_match.
  destruct (Py.span (Re.cls_not dq) r) as [x r'] eqn:Hx.
  destruct x as [|c x]; [discriminate|].
  destruct r' as [|q t]; [discriminate|].
  intros H. injection H as _ <-.
  exists (String c x). split; [reflexivity|]. split; [discriminate|].
  now destruct (span_app _ _ _ _ Hx).
Qed.

Lemma search_group_value (head s rest : string) (g : option string) :
  forall bol,
    Re.search_from (quoted_group_re head) bol s = Some (rest, g) ->
    exists value, g = Some value /\ value <> EmptyString /\
                  quote_free value = true.
Proof.
  induction s as [|c s IH]; intros bol; cbn [Re.search_from];
    rewrite match_quoted_group_re.
  - destruct (strip_prefix (head ++ String dq "") "") as [r|];
      [|discriminate].
    destruct (quoted_match Some r) as [[rest' g']|] eqn:E; [|discriminate].
    intros H. injection H as <- <-. exact (quoted_match_value _ _ _ E).
  - destruct (strip_prefix (head ++ String dq "") (String c s)) as [r|].
    + destruct (quoted_match Some r) as [[rest' g']|] eqn:E.
      * intros H. injection H as <- <-. exact (quoted_match_value _ _ _ E).
      * apply IH.
    + apply IH.
Qed.

(** X10. Whatever the constants file holds, the version and the build that
    [get_current_version] returns are never empty and never hold a double
    quote. *)
Theorem get_current_version_values (w : project) (version build : string) :
  outcome get_current_version w = Ok (version, build) ->
  (version <> EmptyString /\ quote_free version = true) /\
  (build <> EmptyString /\ quote_free build = true).
Proof.
  unfold outcome, get_current_version, bind, read_text.
  destruct (content_of VersionRs w) as [content|]; [|discriminate].
  destruct (Re.search version_group_re content) as [[r1 g1]|] eqn:E1;
    [|discriminate].
  destruct (Re.search build_group_re content) as [[r2 g2]|] eqn:E2;
    [|discriminate].
  destruct (search_group_value version_head content r1 g1 true E1)
    as (v & -> & Hv).
  destruct (search_group_value build_head content r2 g2 true E2)
    as (b & -> & Hb).
  cbn. intros H. injection H as <- <-. now split.
Qed.

Lemma get_current_version_values_witness :
  ("0.2.6"%string <> EmptyString /\ quote_free "0.2.6" = true) /\
  ("0007"%string <> EmptyString /\ quote_free "0007" = true).
Proof.
  apply (get_current_version_values (sample_project "0.2.6" "0007")).
  reflexivity.
Defined.

(** ** A bump, then a read *)

Lemma sign_or_digit_version_char (c : ascii) :
  sign_or_digit c = true -> version_char c = true.
Proof.
  unfold sign_or_digit, version_char, literal_char.
  intros [H|H]%orb_true_iff; rewrite H; now rewrite ?orb_true_r.
Qed.

Lemma str_version_chars (z : Z) : all_chars version_char (Py.str z) = true.
Proof.
  eapply all_chars_weaken; [|apply str_chars].
  apply sign_or_digit_version_char.
Qed.

Lemma nonempty_length (s : string) :
  0 < String.length s -> String.eqb s EmptyString = false.
Proof. destruct s; cbn; [lia|reflexivity]. Qed.

Lemma format_version_plain (major minor patch : Z) :
  plain_value (format_version major minor patch) = true.
Proof.
  unfold plain_value, format_version. apply andb_true_iff. split.
  - apply negb_true_iff, nonempty_length.
    rewrite !append_length. cbn. lia.
  - now rewrite !all_chars_app, !str_version_chars.
Qed.

Lemma format_04d_plain (z : Z) : plain_value (Py.format_04d z) = true.
Proof.
  unfold plain_value. apply andb_true_iff. split.
  - apply negb_true_iff, nonempty_length.
    pose proof (format_04d_length z). lia.
  - unfold Py.format_04d.
    rewrite !all_chars_app, str_version_chars, andb_true_r.
    apply andb_true_iff. split; [now destruct (z <? 0)%Z|].
    generalize (4 - String.length
                      (if (z <? 0)%Z then "-" else "")%string
                  - String.length (Py.str (Z.abs z))).
    intros n. induction n; [reflexivity|exact IHn].
Qed.

Lemma bump_rule_plain (bump_type v b nv nb : string) (x y z : Z) :
  v <> EmptyString ->
  parse_version v = Ok (x, y, z) ->
  bump_rule bump_type v b x y z = Ok (nv, nb) ->
  plain_value nv = true /\ plain_value nb = true.
Proof.
  intros Hne Hp. unfold bump_rule.
  destruct (String.eqb bump_type "major");
    [intros H; injection H as <- <-; split;
     [apply format_version_plain|reflexivity]|].
  destruct (String.eqb bump_type "minor");
    [intros H; injection H as <- <-; split;
     [apply format_version_plain|reflexivity]|].
  destruct (String.eqb bump_type "patch");
    [intros H; injection H as <- <-; split;
     [apply format_version_plain|reflexivity]|].
  destruct (String.eqb bump_type "build"); [|discriminate].
  destruct (Py.int b); [|discriminate].
  intros H; injection H as <- <-. split; [|apply format_04d_plain].
  unfold plain_value. rewrite (parse_version_chars _ _ Hp), andb_true_r.
  apply negb_true_iff, String.eqb_neq, Hne.
Qed.

(** X11. [bump] stores what [bump_version] computed. On a project whose
    constants file is the two declarations in a text without other double
    quotes, with a version that parses, and whose manifest and
    documentation file are there, a bump for which [bump_version] returns a
    pair returns itself, leaves the constants file with exactly that pair in
    place of the old one, and [get_current_version] afterwards returns that
    pair. *)
Theorem bump_stores_new_pair (pre mid post : string)
    (old_version old_build manifest doc : string)
    (major minor patch : Z) (bump_type new_version new_build : string)
    (w : project) :
  quote_free pre = true -> quote_free mid = true ->
  quote_free post = true ->
  old_build <> EmptyString -> quote_free old_build = true ->
  parse_version old_version = Ok (major, minor, patch) ->
  version_rs w = Some (constants_file pre old_version mid old_build post) ->
  cargo_toml w = Some manifest ->
  version_md w = Some doc ->
  outcome (bump_version bump_type) w = Ok (new_version, new_build) ->
  outcome (bump bump_type) w = Ok tt /\
  version_rs (project_after (bump bump_type) w)
  = Some (constants_file pre new_version mid new_build post) /\
  outcome get_current_version (project_after (bump bump_type) w)
  = Ok (new_version, new_build).
Proof.
  intros Hpre Hmid Hpost Hob Hobq Hp Hf Hm Hd Hb.
  assert (Hov : old_version <> EmptyString) by (intros ->; discriminate Hp).
  pose proof (parse_version_chars _ _ Hp) as Hovc.
  pose proof (version_chars_quote_free _ Hovc) as Hovq.
  assert (Hg : outcome get_current_version w = Ok (old_version, old_build))
    by now apply (get_current_version_reads pre mid post Hpre Hmid).
  pose proof Hb as Hb'. unfold outcome in Hb'.
  rewrite bump_version_run, Hg, Hp in Hb'. cbn [fst] in Hb'.
  destruct (bump_rule_plain _ _ _ _ _ _ _ _ Hov Hp Hb') as [Hnv Hnb].
  destruct (plain_value_facts _ Hnv) as (Hvne & Hvc & Hvq & Hvb).
  destruct (plain_value_facts _ Hnb) as (Hbne & Hbc & Hbq & Hbb).
  pose proof (update_version_rs_shaped pre mid post old_version old_build
                new_version new_build w Hpre Hmid Hpost Hov Hovq Hob Hobq
                Hvc Hbb Hf) as Hrun.
  assert (Hall : exists w' log,
    bump_writes bump_type old_version old_build new_version new_build w
    = (Ok tt, w', log) /\
    version_rs w' = Some (constants_file pre new_version mid new_build post)).
  { unfold bump_writes.
    destruct (negb (String.eqb new_version old_version)).
    - do 2 eexists. split.
      + do 3 (eapply bind_ok_eq; [reflexivity|]).
        eapply bind_ok_eq; [exact Hrun|].
        eapply bind_ok_eq;
          [apply (update_cargo_toml_run new_version manifest);
           [exact Hm|exact Hvb]|].
        eapply bind_ok_eq;
          [apply (update_version_md_run new_version new_build doc);
           [exact Hd|exact Hvb|exact Hbb]|].
        do 5 (eapply bind_ok_eq; [reflexivity|]). reflexivity.
      + reflexivity.
    - do 2 eexists. split.
      + do 3 (eapply bind_ok_eq; [reflexivity|]).
        eapply bind_ok_eq; [exact Hrun|].
        eapply bind_ok_eq; [reflexivity|].
        eapply bind_ok_eq;
          [apply (update_version_md_run new_version new_build doc);
           [exact Hd|exact Hvb|exact Hbb]|].
        do 5 (eapply bind_ok_eq; [reflexivity|]). reflexivity.
      + reflexivity. }
  destruct Hall as (w' & log & Hw & Hrs).
  unfold outcome at 1. unfold project_after.
  rewrite bump_run, Hg, Hb, Hw. cbn [fst snd].
  split; [reflexivity|]. split; [exact Hrs|].
  now apply (get_current_version_reads pre mid post Hpre Hmid).
Qed.

Lemma bump_stores_new_pair_witness :
  outcome (bump "minor")
    (mkProject (Some (constants_file "// constants" "0.2.6" ";" "0007" ";"))
       (Some sample_manifest) (Some sample_doc)) = Ok tt /\
  version_rs
    (project_after (bump "minor")
       (mkProject
          (Some (constants_file "// constants" "0.2.6" ";" "0007" ";"))
          (Some sample_manifest) (Some sample_doc)))
  = Some (constants_file "// constants" "0.3.0" ";" "0001" ";") /\
  outcome get_current_version
    (project_after (bump "minor")
       (mkProject
          (Some (constants_file "// constants" "0.2.6" ";" "0007" ";"))
          (Some sample_manifest) (Some sample_doc)))
  = Ok ("0.3.0", "0001").
Proof.
  apply (bump_stores_new_pair "// constants" ";" ";"
           "0.2.6" "0007" sample_manifest sample_doc 0 2 6
           "minor" "0.3.0" "0001");
    (reflexivity || discriminate).
Defined.

(** ** An empty version *)

(** A chunk whose following quote opens no value holds no match start. *)
Lemma search_from_skip_failed (p : Re.pattern) (head : string)
    (found : string -> option string)
    (head_quote_free : quote_free head = true)
    (match_p :
       forall bol s,
         Re.match_here p bol None None s
         = match strip_prefix (head ++ String dq "") s with
           | Some r => quoted_match found r
           | None => None
           end)
    (u rest : string) :
  quote_free u = true -> quoted_match found rest = None ->
  forall bol,
    Re.search_from p bol (u ++ String dq rest)
    = Re.search_from p false rest.
Proof.
  intros Hu Hfail. induction u as [|c u IH]; intros bol.
  - cbn [append Re.search_from].
    pose proof (match_chunk p head found head_quote_free match_p
                  bol "" rest eq_refl) as E.
    cbn [append] in E. rewrite E, Hfail.
    now destruct (String.eqb "" head).
  - unfold quote_free in Hu. cbn [all_chars] in Hu.
    apply andb_true_iff in Hu as [Hc Hu'].
    assert (Hq : quote_free (String c u) = true)
      by (unfold quote_free; cbn [all_chars]; now rewrite Hc, Hu').
    change (String c u ++ String dq rest)%string
      with (String c (u ++ String dq rest)).
    cbn [Re.search_from].
    change (String c (u ++ String dq rest))
      with (String c u ++ String dq rest)%string.
    rewrite (match_chunk p head found head_quote_free match_p
               bol _ rest Hq), Hfail.
    destruct (String.eqb (String c u) head); now apply IH.
Qed.

(** Neither VERSION pattern matches a constants file whose version is
    empty. *)
Lemma search_empty_version (p : Re.pattern)
    (found : string -> option string)
    (match_p :
       forall bol s,
         Re.match_here p bol None None s
         = match strip_prefix (version_head ++ String dq "") s with
           | Some r => quoted_match found r
           | None => None
           end)
    (pre mid build post : string) :
  quote_free pre = true -> quote_free mid = true ->
  quote_free build = true -> quote_free post = true ->
  Re.search_from p true (constants_file pre "" mid build post) = None.
Proof.
  intros Hpre Hmid Hbuild Hpost. rewrite constants_file_shape.
  cbn [append]. rewrite <- append_assoc.
  rewrite (search_from_skip_failed p version_head found eq_refl match_p).
  2:{ unfold quote_free in *. rewrite all_chars_app, Hpre. reflexivity. }
  2:{ reflexivity. }
  change (String dq (mid ++ build_head
                       ++ String dq (build ++ String dq post)))%string
    with ("" ++ String dq (mid ++ build_head
                       ++ String dq (build ++ String dq post)))%string.
  rewrite (search_from_skip p version_head found eq_refl match_p);
    [|reflexivity|reflexivity].
  rewrite <- append_assoc.
  rewrite (search_from_skip p version_head found eq_refl match_p).
  - now apply (search_from_last_value p version_head found eq_refl match_p).
  - unfold quote_free in *. rewrite all_chars_app, Hmid. reflexivity.
  - apply version_head_not_at_build.
Qed.

(** X12. An empty version is accepted and cannot be undone. On a constants
    file made of the two declarations in a text without other double quotes,
    with stored values that are not empty, [update_version_rs] with the
    empty string as the version and a build that is not empty and made of
    version characters returns and writes a declaration with an empty
    value. After that [get_current_version] raises, and a later
    [update_version_rs], with any version and build free of backslashes,
    returns but replaces the build alone: the version stays empty. *)
Theorem update_version_rs_empty_version (pre mid post : string)
    (old_version old_build build version' build' : string) (w : project) :
  quote_free pre = true -> quote_free mid = true ->
  quote_free post = true ->
  old_version <> EmptyString -> quote_free old_version = true ->
  old_build <> EmptyString -> quote_free old_build = true ->
  plain_value build = true ->
  no_backslash version' = true -> no_backslash build' = true ->
  version_rs w = Some (constants_file pre old_version mid old_build post) ->
  outcome (update_version_rs "" build) w = Ok tt /\
  version_rs (project_after (update_version_rs "" build) w)
  = Some (constants_file pre "" mid build post) /\
  outcome get_current_version
    (project_after (update_version_rs "" build) w)
  = Raise CouldNotParseVersion /\
  outcome (update_version_rs version' build')
    (project_after (update_version_rs "" build) w) = Ok tt /\
  version_rs
    (project_after (update_version_rs version' build')
       (project_after (update_version_rs "" build) w))
  = Some (constants_file pre "" mid build' post).
Proof.
  intros Hpre Hmid Hpost Hov Hovq Hob Hobq Hb Hv' Hb' Hf.
  destruct (plain_value_facts _ Hb) as (Hbne & Hbc & Hbq & Hbb).
  pose proof (update_version_rs_shaped pre mid post old_version old_build
                "" build w Hpre Hmid Hpost Hov Hovq Hob Hobq
                eq_refl Hbb Hf) as Hrun.
  unfold outcome, project_after. rewrite Hrun. cbn [fst snd].
  split; [reflexivity|]. split; [reflexivity|].
  assert (H1 : no_backslash (version_declaration version') = true).
  { unfold version_declaration.
    rewrite no_backslash_app, no_backslash_quoted by exact Hv'.
    reflexivity. }
  assert (H2 : no_backslash (build_declaration build') = true).
  { unfold build_declaration.
    rewrite no_backslash_app, no_backslash_quoted by exact Hb'.
    reflexivity. }
  split.
  - unfold get_current_version, bind, read_text. cbn [content_of store
      version_rs]. unfold Re.search.
    rewrite (search_empty_version version_group_re Some
               (match_quoted_group_re version_head)) by assumption.
    reflexivity.
  - unfold update_version_rs, bind, read_text, lift, write_text, print.
    cbn [content_of store version_rs].
    change ("pub const VERSION: &str = " ++ quoted version')%string
      with (version_declaration version').
    change ("pub const BUILD: &str = " ++ quoted build')%string
      with (build_declaration build').
    rewrite (sub_literal _ _ _ H1).
    rewrite sub_from_no_match
      by (apply (search_empty_version version_re (fun _ => None)
                   (match_quoted_re version_head)); assumption).
    rewrite (sub_literal _ _ _ H2).
    rewrite (sub_build pre mid post Hpre Hmid Hpost "" build build'
               eq_refl Hbne Hbq).
    split; reflexivity.
Qed.

Lemma update_version_rs_empty_version_witness :
  outcome (update_version_rs "" "0001")
    (mkProject
       (Some (constants_file "// constants" "0.2.6" ";" "0007" ";"))
       None None) = Ok tt /\
  version_rs
    (project_after (update_version_rs "" "0001")
       (mkProject
          (Some (constants_file "// constants" "0.2.6" ";" "0007" ";"))
          None None))
  = Some (constants_file "// constants" "" ";" "0001" ";") /\
  outcome get_current_version
    (project_after (update_version_rs "" "0001")
       (mkProject
          (Some (constants_file "// constants" "0.2.6" ";" "0007" ";"))
          None None))
  = Raise CouldNotParseVersion /\
  outcome (update_version_rs "0.3.0" "0002")
    (project_after (update_version_rs "" "0001")
       (mkProject
          (Some (constants_file "// constants" "0.2.6" ";" "0007" ";"))
          None None)) = Ok tt /\
  version_rs
    (project_after (update_version_rs "0.3.0" "0002")
       (project_after (update_version_rs "" "0001")
          (mkProject
             (Some (constants_file "// constants" "0.2.6" ";" "0007" ";"))
             None None)))
  = Some (constants_file "// constants" "" ";" "0002" ";").
Proof.
  apply (update_version_rs_empty_version "// constants" ";" ";"
           "0.2.6" "0007" "0001" "0.3.0" "0002");
    (reflexivity || discriminate).
Defined.

(** ** The section of the documentation file *)

Lemma greedy_all {A : Type} (cls : ascii -> bool)
    (k : bool -> string -> option A) (x s : string) (r : A) :
  all_chars cls x = true -> stops cls s = true ->
  forall bol,
    k (bol_after bol x) s = Some r ->
    Re.greedy cls k bol (x ++ s) = Some r.
Proof.
  intros Hx Hs. induction x as [|c x IH]; intros bol Hk.
  - cbn [append bol_after] in *. destruct s as [|c t]; [exact Hk|].
    cbn [Re.greedy]. cbn [stops] in Hs. apply negb_true_iff in Hs.
    now rewrite Hs.
  - cbn [all_chars] in Hx. apply andb_true_iff in Hx as [Hc Hx].
    cbn [append Re.greedy]. rewrite Hc.
    now rewrite (IH Hx (Ascii.eqb c nl) Hk).
Qed.

Lemma match_plus (cls : ascii -> bool) (p : Re.pattern)
    (opened grp : option string) (x s : string)
    (r : string * option string) :
  x <> EmptyString -> all_chars cls x = true -> stops cls s = true ->
  forall bol,
    Re.match_here p (bol_after bol x) opened grp s = Some r ->
    Re.match_here (Re.Plus cls :: p) bol opened grp (x ++ s) = Some r.
Proof.
  intros Hne Hx Hs bol Hk. destruct x as [|c x]; [now elim Hne|].
  cbn [all_chars] in Hx. apply andb_true_iff in Hx as [Hc Hx].
  cbn [append Re.match_here]. rewrite Hc.
  now apply (greedy_all cls
               (fun b t => Re.match_here p b opened grp t) x s r Hx Hs).
Qed.

Lemma line_end_stops (s : string) :
  line_end s = true -> stops (Re.cls_not nl) s = true.
Proof.
  destruct s as [|c s]; [reflexivity|]. cbn [line_end stops].
  unfold Re.cls_not. intros ->. reflexivity.
Qed.

(** The pattern at the start of the section. *)
Lemma match_version_block (gap1 version gap2 build post : string) :
  blank gap1 = true -> one_line version = true ->
  all_chars Re.cls_space gap2 = true -> one_line build = true ->
  line_end post = true ->
  forall bol,
    Re.match_here current_version_re bol None None
      (version_block gap1 version gap2 build ++ post)
    = Some (post, None).
Proof.
  intros [Hg1 Hg1s]%andb_true_iff [Hv Hvl]%andb_true_iff Hg2
    [Hb Hbl]%andb_true_iff Hpost bol.
  apply negb_true_iff, String.eqb_neq in Hg1, Hv, Hb.
  unfold current_version_re, version_block.
  rewrite !append_assoc, match_lit, strip_prefix_self.
  cbn [app]. apply (match_plus Re.cls_space); [exact Hg1|exact Hg1s|
                                               reflexivity|].
  rewrite match_lit, strip_prefix_self.
  cbn [app]. apply (match_plus (Re.cls_not nl)); [exact Hv|exact Hvl|
                                                  reflexivity|].
  change (String nl (gap2 ++ "- **Build**: " ++ build ++ post))%string
    with (String nl gap2 ++ "- **Build**: " ++ build ++ post)%string.
  apply (match_plus Re.cls_space);
    [discriminate|cbn [all_chars]; now rewrite Hg2|reflexivity|].
  rewrite match_lit, strip_prefix_self.
  cbn [app]. apply (match_plus (Re.cls_not nl));
    [exact Hb|exact Hbl|now apply line_end_stops|].
  reflexivity.
Qed.

(** The heading cannot start in the text before it and end in itself. *)
Lemma heading_straddle (u x r : string) :
  u <> EmptyString ->
  (u ++ heading ++ x)%string = (heading ++ r)%string ->
  exists r', strip_prefix heading u = Some r'.
Proof.
  intros Hne H. unfold heading in *.
  destruct u as [|c u]; [now elim Hne|]. clear Hne.
  cbn [append] in H. injection H as -> H.
  do 17 (destruct u as [|c u]; cbn [append] in H;
         [discriminate H|injection H as -> H]).
  eexists. cbn. reflexivity.
Qed.

Lemma occurs_here (l s : string) :
  occurs l s = false -> strip_prefix l s = None.
Proof.
  destruct s as [|c s]; cbn [occurs];
    now destruct (strip_prefix l _).
Qed.

Lemma occurs_tail (l s : string) (c : ascii) :
  occurs l (String c s) = false -> occurs l s = false.
Proof.
  cbn [occurs]. now destruct (strip_prefix l (String c s)).
Qed.

(** No match starts where the heading does not. *)
Lemma match_needs_heading (bol : bool) (s : string) :
  strip_prefix heading s = None ->
  Re.match_here current_version_re bol None None s = None.
Proof.
  intros H. unfold current_version_re. fold heading.
  now rewrite match_lit, H.
Qed.

Lemma search_needs_heading (s : string) :
  occurs heading s = false ->
  forall bol, Re.search_from current_version_re bol s = None.
Proof.
  induction s as [|c s IH]; intros Ho bol; cbn [Re.search_from];
    rewrite (match_needs_heading bol _ (occurs_here _ _ Ho)); [reflexivity|].
  apply IH, (occurs_tail _ _ _ Ho).
Qed.

(** The text before the heading is kept. *)
Lemma sub_from_miss (p : Re.pattern) (t : list Re.piece) (bol : bool)
    (c : ascii) (s : string) :
  Re.match_here p bol None None (String c s) = None ->
  Re.sub_from p t bol 0 (String c s)
  = String c (Re.sub_from p t (Ascii.eqb c nl) 0 s).
Proof. intros H. cbn [Re.sub_from]. now rewrite H. Qed.

Lemma sub_before_heading (t : list Re.piece) (pre x : string) :
  occurs heading pre = false ->
  forall bol,
    Re.sub_from current_version_re t bol 0 (pre ++ heading ++ x)
    = (pre ++ Re.sub_from current_version_re t (bol_after bol pre) 0
                (heading ++ x))%string.
Proof.
  induction pre as [|c pre IH]; intros Ho bol.
  - cbn [append bol_after]. reflexivity.
  - assert (Hne : String c pre <> EmptyString) by discriminate.
    assert (Hs : strip_prefix heading (String c pre ++ heading ++ x)
                 = None).
    { destruct (strip_prefix heading (String c pre ++ heading ++ x))
        as [r|] eqn:E; [|reflexivity].
      apply strip_prefix_eq in E.
      destruct (heading_straddle _ _ _ Hne E) as [r' E'].
      rewrite (occurs_here _ _ Ho) in E'. discriminate E'. }
    pose proof (match_needs_heading bol _ Hs) as Hm.
    change (String c pre ++ heading ++ x)%string
      with (String c (pre ++ heading ++ x)) in Hm |- *.
    rewrite (sub_from_miss _ t _ _ _ Hm).
    change (bol_after bol (String c pre))
      with (bol_after (Ascii.eqb c nl) pre).
    rewrite (IH (occurs_tail _ _ _ Ho)). reflexivity.
Qed.

Lemma sub_from_at_match (p : Re.pattern) (t : list Re.piece) (bol : bool)
    (c : ascii) (m rest : string) (g : option string) :
  Re.match_here p bol None None (String c m ++ rest) = Some (rest, g) ->
  Re.sub_from p t bol 0 (String c m ++ rest)
  = (Re.expand t (String c m) g
     ++ Re.sub_from p t (bol_after bol (String c m)) 0 rest)%string.
Proof.
  intros H.
  pose proof (consumed_app (String c m) rest) as Hc.
  pose proof (take_app (String c m) rest) as Ht.
  change (String c m ++ rest)%string with (String c (m ++ rest)) in *.
  cbn [Re.sub_from]. rewrite H, Hc, Ht. cbn [String.length Nat.eqb].
  replace (S (String.length m) - 1) with (String.length m) by lia.
  now rewrite sub_from_skip_any.
Qed.

(** The pattern on a file with one section. *)
Lemma sub_version_block (t : list Re.piece) (repl : string)
    (pre gap1 version gap2 build post : string) :
  (forall m g, Re.expand t m g = repl) ->
  occurs heading pre = false -> occurs heading post = false ->
  blank gap1 = true -> one_line version = true ->
  all_chars Re.cls_space gap2 = true -> one_line build = true ->
  line_end post = true ->
  Re.sub_from current_version_re t true 0
    (pre ++ version_block gap1 version gap2 build ++ post)
  = (pre ++ repl ++ post)%string.
Proof.
  intros Ht Hpre Hpost Hg1 Hv Hg2 Hb Hend.
  pose proof (match_version_block gap1 version gap2 build post
                Hg1 Hv Hg2 Hb Hend (bol_after true pre)) as Hm.
  assert (Hs : (version_block gap1 version gap2 build ++ post)%string
               = (heading
                    ++ (gap1 ++ "- **Version**: " ++ version
                          ++ String nl gap2 ++ "- **Build**: " ++ build
                          ++ post))%string).
  { unfold version_block, heading. now rewrite !append_assoc. }
  rewrite Hs, (sub_before_heading t pre _ Hpre), <- Hs. f_equal.
  assert (Em : exists c m, version_block gap1 version gap2 build
                           = String c m).
  { unfold version_block. do 2 eexists. cbn [append]. reflexivity. }
  destruct Em as (c & m & Em). rewrite Em in Hm |- *.
  rewrite (sub_from_at_match _ t _ _ _ _ _ Hm), Ht.
  rewrite sub_from_no_match; [reflexivity|].
  now apply search_needs_heading.
Qed.
(** X13. The section is rewritten, the rest kept. On a documentation file
    whose Current Version section is the only place where the text of its
    heading occurs, with a version and a build on one line each and
    whatever white space between the lines, [update_version_md] writes the
    file with the section in its standard layout holding the new version and
    build, and the text before and after the section as it was. *)
Theorem update_version_md_section
    (pre gap1 old_version gap2 old_build post version build : string)
    (w : project) :
  occurs heading pre = false -> occurs heading post = false ->
  blank gap1 = true -> one_line old_version = true ->
  all_chars Re.cls_space gap2 = true -> one_line old_build = true ->
  line_end post = true ->
  no_backslash version = true -> no_backslash build = true ->
  version_md w
  = Some (pre ++ version_block gap1 old_version gap2 old_build
              ++ post)%string ->
  update_version_md version build w
  = (Ok tt,
     store VersionMd
       (pre ++ current_version_block version build ++ post)%string w,
     [Wrote VersionMd
        (pre ++ current_version_block version build ++ post)%string;
      Printed (MsgUpdated VersionMd)]).
Proof.
  intros Hpre Hpost Hg1 Hv Hg2 Hb Hend Hnv Hnb Hf.
  rewrite (update_version_md_run version build _ w Hf Hnv Hnb).
  now rewrite (sub_version_block _ (current_version_block version build)
                 pre gap1 old_version gap2 old_build post
                 (expand_literal _)).
Qed.

Lemma update_version_md_section_witness :
  update_version_md "0.3.0" "0001"
    (mkProject None None
       (Some (unlines ["# Version Management"; ""]
              ++ version_block (String nl "") "0.2.6" "  " "0007"
              ++ unlines [""; ""; "## History"; ""])%string))
  = (Ok tt,
     store VersionMd
       (unlines ["# Version Management"; ""]
        ++ current_version_block "0.3.0" "0001"
        ++ unlines [""; ""; "## History"; ""])%string
       (mkProject None None
          (Some (unlines ["# Version Management"; ""]
                 ++ version_block (String nl "") "0.2.6" "  " "0007"
                 ++ unlines [""; ""; "## History"; ""])%string)),
     [Wrote VersionMd
        (unlines ["# Version Management"; ""]
         ++ current_version_block "0.3.0" "0001"
         ++ unlines [""; ""; "## History"; ""])%string;
      Printed (MsgUpdated VersionMd)]).
Proof.
  apply (update_version_md_section
           (unlines ["# Version Management"; ""]) (String nl "")
           "0.2.6" "  " "0007" (unlines [""; ""; "## History"; ""]));
    vm_compute; reflexivity.
Defined.
